(** * The job-application handler (pages/api/apply.ts)

    A shallow embedding of the upload configuration, the three validation
    functions and the request handler, with the file store, the applicant
    table, the console and the response object as explicit state. *)

From Stdlib Require Import List Bool NArith ZArith Lia.
From Stdlib Require Import Ascii String DecimalString.
Import ListNotations.

Set Implicit Arguments.

(** ** JavaScript strings

    A JavaScript string is a sequence of UTF-16 code units; the regular
    expressions of the source carry no [u] flag, so they too work code unit
    by code unit. *)

Module JS.

Definition code_unit := N.
Definition jsstring := list code_unit.

(** A literal of the source (all of them are Basic Latin). *)
Definition js (s : string) : jsstring :=
  map (fun a => N_of_ascii a) (list_ascii_of_string s).

Definition cu (a : ascii) : code_unit := N_of_ascii a.

Definition jsstring_eqb (a b : jsstring) : bool :=
  if list_eq_dec N.eq_dec a b then true else false.

(** WhiteSpace and LineTerminator of ECMAScript: what [\s] matches and what
    [String.prototype.trim] strips. *)
Definition isWhiteSpace (c : code_unit) : bool :=
  ((9 <=? c) && (c <=? 13) || (c =? 32) || (c =? 160) || (c =? 5760)
   || (8192 <=? c) && (c <=? 8202) || (c =? 8232) || (c =? 8233)
   || (c =? 8239) || (c =? 8287) || (c =? 12288) || (c =? 65279))%N.

Fixpoint dropWhile (p : code_unit -> bool) (s : jsstring) : jsstring :=
  match s with
  | [] => []
  | c :: t => if p c then dropWhile p t else s
  end.

Definition trimStart (s : jsstring) : jsstring := dropWhile isWhiteSpace s.
Definition trimEnd (s : jsstring) : jsstring :=
  rev (dropWhile isWhiteSpace (rev s)).
Definition trim (s : jsstring) : jsstring := trimEnd (trimStart s).

Fixpoint startsWith (s sub : jsstring) : bool :=
  match sub, s with
  | [], _ => true
  | _ :: _, [] => false
  | x :: sub', c :: s' => (c =? x)%N && startsWith s' sub'
  end.

(** [String.prototype.includes]. *)
Fixpoint includes (s sub : jsstring) : bool :=
  startsWith s sub ||
  match s with
  | [] => false
  | _ :: t => includes t sub
  end.

Definition isBasicLatin (c : code_unit) : bool := (c <? 128)%N.

Definition lowerBasicLatin (c : code_unit) : code_unit :=
  if ((65 <=? c) && (c <=? 90))%N then (c + 32)%N else c.

(** A value that is a string or [undefined] (a form field that may be
    missing from the request body). *)
Definition value := option jsstring.

(** [ToString]: what [RegExp.prototype.test] does to its argument. *)
Definition ToString (v : value) : jsstring :=
  match v with
  | Some s => s
  | None => js "undefined"
  end.

(** [v?.trim()] *)
Definition optTrim (v : value) : value := option_map trim v.

(** ToBoolean on a string-or-undefined value. *)
Definition truthy (v : value) : bool :=
  match v with
  | Some (_ :: _) => true
  | _ => false
  end.

(** Template-literal rendering of an integral Number (below 1e21 in
    magnitude, as every time value is). *)
Definition NumberToString (n : Z) : jsstring :=
  js (NilZero.string_of_int (Z.to_int n)).

End JS.
Import JS.

(** ** Regular expressions

    The fragment of the pattern language the source uses, for patterns
    anchored at both ends ([^...$], no [m] flag): character classes,
    concatenation, [+] and [{n}].  [Void] and [Alt] only arise as
    derivatives. *)

Module Regex.

Inductive regex : Type :=
| Void : regex
| Eps : regex
| Class : (code_unit -> bool) -> regex
| Cat : regex -> regex -> regex
| Alt : regex -> regex -> regex
| Star : regex -> regex.

Definition Plus (r : regex) : regex := Cat r (Star r).

Fixpoint Repeat (n : nat) (r : regex) : regex :=
  match n with
  | O => Eps
  | S k => Cat r (Repeat k r)
  end.

Definition Char (a : ascii) : regex := Class (fun c => (c =? cu a)%N).

(** The language of a pattern. *)
Inductive Matches : regex -> jsstring -> Prop :=
| MEps : Matches Eps []
| MClass : forall p c, p c = true -> Matches (Class p) [c]
| MCat : forall r1 r2 s1 s2,
    Matches r1 s1 -> Matches r2 s2 -> Matches (Cat r1 r2) (s1 ++ s2)
| MAltL : forall r1 r2 s, Matches r1 s -> Matches (Alt r1 r2) s
| MAltR : forall r1 r2 s, Matches r2 s -> Matches (Alt r1 r2) s
| MStarNil : forall r, Matches (Star r) []
| MStarCons : forall r s1 s2,
    Matches r s1 -> Matches (Star r) s2 -> Matches (Star r) (s1 ++ s2).

Fixpoint nullable (r : regex) : bool :=
  match r with
  | Void => false
  | Eps => true
  | Class _ => false
  | Cat r1 r2 => nullable r1 && nullable r2
  | Alt r1 r2 => nullable r1 || nullable r2
  | Star _ => true
  end.

Fixpoint deriv (c : code_unit) (r : regex) : regex :=
  match r with
  | Void => Void
  | Eps => Void
  | Class p => if p c then Eps else Void
  | Cat r1 r2 =>
      if nullable r1
      then Alt (Cat (deriv c r1) r2) (deriv c r2)
      else Cat (deriv c r1) r2
  | Alt r1 r2 => Alt (deriv c r1) (deriv c r2)
  | Star r1 => Cat (deriv c r1) (Star r1)
  end.

(** [pattern.test(s)] for a pattern anchored at both ends. *)
Fixpoint test (r : regex) (s : jsstring) : bool :=
  match s with
  | [] => nullable r
  | c :: t => test (deriv c r) t
  end.

End Regex.
Import Regex.

(** ** The data of a request and of the two stores *)

(** The applicant table ([prisma.applicant]); the schema declares no
    uniqueness constraint, so [create] never refuses a row. *)
Module Prisma.

Record Applicant : Type := {
  id : Z;
  full_name : jsstring;
  email : jsstring;
  phone : jsstring;
  linkedin : option jsstring;
  resume_path : option jsstring
}.

(** The [data] argument of [create]. *)
Record ApplicantData : Type := {
  data_full_name : jsstring;
  data_email : jsstring;
  data_phone : jsstring;
  data_linkedin : option jsstring;
  data_resume_path : option jsstring
}.

Record Table : Type := {
  rows : list Applicant;
  next_id : Z                   (* the autoincrement sequence *)
}.

(** [findFirst({ where: { field: v } })]: an [undefined] value is no filter
    at all; a string is compared for equality (case-sensitively, as
    PostgreSQL does by default). *)
Definition findFirst (field : Applicant -> jsstring) (v : value) (t : Table)
  : option Applicant :=
  match v with
  | None => hd_error (rows t)
  | Some s => find (fun a => jsstring_eqb (field a) s) (rows t)
  end.

Definition create (d : ApplicantData) (t : Table) : Applicant * Table :=
  let a := {| id := next_id t;
              full_name := data_full_name d;
              email := data_email d;
              phone := data_phone d;
              linkedin := data_linkedin d;
              resume_path := data_resume_path d |} in
  (a, {| rows := rows t ++ [a]; next_id := (next_id t + 1)%Z |}).

End Prisma.

(** An error object: [err.code] and [err.message]. *)
Record JsError : Type := {
  code : value;
  message : jsstring
}.

(** The file part of the multipart body, as multer sees it. *)
Record FilePart : Type := {
  originalname : jsstring;
  mimetype : jsstring;
  size : N                      (* bytes *)
}.

(** [req.file] once multer has stored the part. *)
Record StoredFile : Type := {
  filename : jsstring;
  path : jsstring
}.

Record Request : Type := {
  method : value;
  fullName : value;
  email : value;
  phone : value;
  linkedin : value;
  resume : option FilePart
}.

Inductive Json : Type :=
| ErrorBody (error : jsstring)
| SuccessBody (msg : jsstring) (new_id : Z).

Record Response : Type := {
  status : Z;
  body : Json
}.

Inductive LogLine : Type :=
| LogUploadError (err : JsError)
| LogApiError (err : JsError)
| LogCleanupError (err : JsError)
| LogCreated (new_id : Z) (submitted_email : value).

(** What outlives a request: the table, the files of the upload directory
    (by path) and the console. *)
Record Store : Type := {
  table : Prisma.Table;
  files : list jsstring;
  console : list LogLine
}.

(** The state a run of the handler works on: the store, the response object
    (the response sent, if any) and [req.file]. *)
Record World : Type := {
  store : Store;
  res : option Response;
  req_file : option StoredFile
}.

(** What the surroundings decide in one run: the working directory, the
    clock, and which of the external calls throw (and what). *)
Record Env : Type := {
  cwd : jsstring;
  Date_now : Z;
  upload_fault : option JsError;          (* multer fails for a reason of its own *)
  findFirst_email_fault : option JsError;
  findFirst_phone_fault : option JsError;
  create_fault : option JsError;
  unlink_fault : option JsError;          (* the unlinkSync of a duplicate branch *)
  cleanup_unlink_fault : option JsError   (* the unlinkSync of the catch block *)
}.

(** ** A state and exception monad *)

Inductive Result (A : Type) : Type :=
| Ok : A -> Result A
| Throw : JsError -> Result A.
Arguments Ok {A} _.
Arguments Throw {A} _.

Definition M (A : Type) : Type := World -> Result A * World.

Definition ret {A} (a : A) : M A := fun w => (Ok a, w).
Definition throw {A} (e : JsError) : M A := fun w => (Throw e, w).

Definition bind {A B} (m : M A) (k : A -> M B) : M B :=
  fun w =>
    match m w with
    | (Ok a, w') => k a w'
    | (Throw e, w') => (Throw e, w')
    end.

Definition try_catch {A} (m : M A) (h : JsError -> M A) : M A :=
  fun w =>
    match m w with
    | (Ok a, w') => (Ok a, w')
    | (Throw e, w') => h e w'
    end.

Notation "x <- m ;; k" := (bind m (fun x => k))
  (at level 61, m at next level, right associativity).
Notation "m ;; k" := (bind m (fun _ => k))
  (at level 61, right associativity).

Definition get : M World := fun w => (Ok w, w).
Definition modify_store (f : Store -> Store) : M unit :=
  fun w => (Ok tt, {| store := f (store w); res := res w; req_file := req_file w |}).

Definition console_log (l : LogLine) : M unit :=
  modify_store (fun s => {| table := table s; files := files s;
                            console := console s ++ [l] |}).

(** [res.status(status).json(body)]: the first call sends the response; once
    one has been sent, setting the header throws. *)
Definition ERR_HTTP_HEADERS_SENT : JsError :=
  {| code := Some (js "ERR_HTTP_HEADERS_SENT");
     message := js "Cannot set headers after they are sent to the client" |}.

Definition send (st : Z) (b : Json) : M unit :=
  fun w =>
    match res w with
    | Some _ => (Throw ERR_HTTP_HEADERS_SENT, w)
    | None => (Ok tt, {| store := store w;
                         res := Some {| status := st; body := b |};
                         req_file := req_file w |})
    end.

(** A call that throws [e] when the surroundings say so. *)
Definition faulty {A} (fault : option JsError) (m : M A) : M A :=
  match fault with
  | Some e => throw e
  | None => m
  end.

Definition findFirst (fault : option JsError)
    (field : Prisma.Applicant -> jsstring) (v : value)
  : M (option Prisma.Applicant) :=
  faulty fault (w <- get ;; ret (Prisma.findFirst field v (table (store w)))).

Definition create (fault : option JsError) (d : Prisma.ApplicantData)
  : M Prisma.Applicant :=
  faulty fault
    (fun w =>
       let (a, t) := Prisma.create d (table (store w)) in
       (Ok a, {| store := {| table := t; files := files (store w);
                             console := console (store w) |};
                 res := res w; req_file := req_file w |})).

Definition ENOENT : JsError :=
  {| code := Some (js "ENOENT"); message := js "no such file or directory" |}.

Definition has_file (p : jsstring) (fs : list jsstring) : bool :=
  existsb (jsstring_eqb p) fs.

Definition remove_file (p : jsstring) (fs : list jsstring) : list jsstring :=
  filter (fun q => negb (jsstring_eqb p q)) fs.

(** [fs.unlinkSync(p)]. *)
Definition unlinkSync (fault : option JsError) (p : jsstring) : M unit :=
  faulty fault
    (w <- get ;;
     if has_file p (files (store w))
     then modify_store (fun s => {| table := table s;
                                    files := remove_file p (files s);
                                    console := console s |})
     else throw ENOENT).

(** ** pages/api/apply.ts *)

Section Apply.

(** [String.prototype.toLowerCase] on a string with a code unit that is
    neither Basic Latin nor white space: the Unicode case tables of the
    runtime, which are no part of the repository. *)
Variable unicodeToLowerCase : jsstring -> jsstring.

(** Basic Latin letters go to lower case; the other Basic Latin characters
    and white space have no case. *)
Definition toLowerCase (s : jsstring) : jsstring :=
  if forallb (fun c => isBasicLatin c || isWhiteSpace c) s
  then map lowerBasicLatin s
  else unicodeToLowerCase s.

Definition value_eqb (a b : value) : bool :=
  match a, b with
  | Some x, Some y => jsstring_eqb x y
  | None, None => true
  | _, _ => false
  end.

(** [path.join] of two segments that need no normalisation. *)
Definition path_join (a b : jsstring) : jsstring := a ++ js "/" ++ b.

Definition uploadDir (env : Env) : jsstring := path_join (cwd env) (js "resumes").

(** *** The multer configuration *)

Definition in_range (lo hi : ascii) (c : code_unit) : bool :=
  ((cu lo <=? c) && (c <=? cu hi))%N.

(** The class [[^a-zA-Z0-9.-]]. *)
Definition unsafe_char (c : code_unit) : bool :=
  negb (in_range "a" "z" c || in_range "A" "Z" c || in_range "0" "9" c
        || (c =? cu ".")%N || (c =? cu "-")%N).

(** [s.replace(/[class]/g, rep)] for a pattern that is one character class. *)
Definition replace_class (p : code_unit -> bool) (rep : jsstring) (s : jsstring)
  : jsstring :=
  flat_map (fun c => if p c then rep else [c]) s.

Definition sanitizedName (file : FilePart) : jsstring :=
  replace_class unsafe_char (js "_") (originalname file).

(** The [filename] callback of the disk storage. *)
Definition storage_filename (env : Env) (file : FilePart) : jsstring :=
  NumberToString (Date_now env) ++ js "-" ++ sanitizedName file.

Definition fileSize_limit : N := 5 * 1024 * 1024.

Definition allowedMimeTypes : list jsstring :=
  [ js "application/pdf";
    js "application/vnd.openxmlformats-officedocument.wordprocessingml.document" ].

Definition filter_message : jsstring := js "Only PDF and DOCX files are allowed".

(** [fileFilter]: [None] accepts the file, [Some e] refuses it with [e]. *)
Definition fileFilter (file : FilePart) : option JsError :=
  if existsb (jsstring_eqb (mimetype file)) allowedMimeTypes
  then None
  else Some {| code := None; message := filter_message |}.

Definition LIMIT_FILE_SIZE : JsError :=
  {| code := Some (js "LIMIT_FILE_SIZE"); message := js "File too large" |}.

Definition add_file (p : jsstring) (fs : list jsstring) : list jsstring :=
  if has_file p fs then fs else p :: fs.

(** What multer records in [req.file]: the name given by [filename] and
    the path under [destination]. *)
Definition stored_file (env : Env) (file : FilePart) : StoredFile :=
  let name := storage_filename env file in
  {| filename := name; path := path_join (uploadDir env) name |}.

(** [upload.single('resume')]: multer asks [fileFilter], names the file with
    [filename], writes it under [destination] and sets [req.file].  A part
    over the size limit is written to the generated path and removed again,
    so nothing is left at that path, and [req.file] stays unset.  A fault of
    multer's own is taken to come before anything is written; a part of
    exactly the limit is taken to pass (multer releases differ on it). *)
Definition upload_single (env : Env) (req : Request) : M unit :=
  faulty (upload_fault env)
    match resume req with
    | None => ret tt
    | Some file =>
        match fileFilter file with
        | Some e => throw e
        | None =>
            if (fileSize_limit <? size file)%N then
              modify_store
                (fun s => {| table := table s;
                             files := remove_file (path (stored_file env file))
                                        (files s);
                             console := console s |}) ;;
              throw LIMIT_FILE_SIZE
            else
              let stored := stored_file env file in
              fun w =>
                (Ok tt,
                 {| store := {| table := table (store w);
                                files := add_file (path stored) (files (store w));
                                console := console (store w) |};
                    res := res w;
                    req_file := Some stored |})
        end
    end.

(** *** Validation functions *)

Definition not_space_or_at (c : code_unit) : bool :=
  negb (isWhiteSpace c || (c =? cu "@")%N).

(** [/^[^\s@]+@[^\s@]+\.[^\s@]+$/] *)
Definition emailRegex : regex :=
  Cat (Plus (Class not_space_or_at))
   (Cat (Char "@")
    (Cat (Plus (Class not_space_or_at))
     (Cat (Char ".")
      (Plus (Class not_space_or_at))))).

Definition validateEmail (email : value) : bool :=
  test emailRegex (ToString email).

(** [/^[0-9]{10}$/] *)
Definition phoneRegex : regex := Repeat 10 (Class (in_range "0" "9")).

Definition validatePhone (phone : value) : bool :=
  test phoneRegex (ToString phone).

Definition validateLinkedIn (linkedin : value) : bool :=
  if negb (truthy linkedin) then true
  else includes (toLowerCase (ToString linkedin)) (js "linkedin.com/in/").

(** *** The handler *)

Definition TypeError : JsError :=
  {| code := None; message := js "Cannot read properties of undefined" |}.

(** [v.trim()] *)
Definition call_trim (v : value) : M jsstring :=
  match v with
  | Some s => ret (trim s)
  | None => throw TypeError
  end.

Definition bad_request (m : string) : M unit := send 400 (ErrorBody (js m)).

(** The promise around [upload.single('resume')]. *)
Definition upload_step (env : Env) (req : Request) : M unit :=
  try_catch (upload_single env req)
    (fun err =>
       console_log (LogUploadError err) ;;
       (if value_eqb (code err) (Some (js "LIMIT_FILE_SIZE"))
        then bad_request "File size too large. Maximum 5MB allowed."
        else if jsstring_eqb (message err) filter_message
        then send 400 (ErrorBody (message err))
        else send 500 (ErrorBody (js "File upload failed"))) ;;
       throw err).

(** The duplicate checks and the creation of the record (the rest of the
    [try] block once every field check has passed). *)
Definition handler_persist (env : Env) (req : Request) (file : StoredFile)
  : M unit :=
  existingApplicantByEmail <-
    findFirst (findFirst_email_fault env) Prisma.email (email req) ;;
  match existingApplicantByEmail with
  | Some _ =>
      unlinkSync (unlink_fault env) (path file) ;;
      bad_request "An application with this email already exists"
  | None =>
      existingApplicantByPhone <-
        findFirst (findFirst_phone_fault env) Prisma.phone (phone req) ;;
      match existingApplicantByPhone with
      | Some _ =>
          unlinkSync (unlink_fault env) (path file) ;;
          bad_request "An application with this phone number already exists"
      | None =>
          let resumePath := js "resumes/" ++ filename file in
          full_name <- call_trim (fullName req) ;;
          email_trimmed <- call_trim (email req) ;;
          phone_trimmed <- call_trim (phone req) ;;
          newApplicant <-
            create (create_fault env)
              {| Prisma.data_full_name := full_name;
                 Prisma.data_email := toLowerCase email_trimmed;
                 Prisma.data_phone := phone_trimmed;
                 Prisma.data_linkedin :=
                   if truthy (optTrim (linkedin req))
                   then optTrim (linkedin req) else None;
                 Prisma.data_resume_path := Some resumePath |} ;;
          console_log (LogCreated (Prisma.id newApplicant) (email req)) ;;
          send 200 (SuccessBody (js "Application submitted successfully!")
                                (Prisma.id newApplicant))
      end
  end.

(** The [try] block after the upload: the field checks, in order, each one
    returning its response at once. *)
Definition handler_body (env : Env) (req : Request) : M unit :=
  w <- get ;;
  let uploadedFile := req_file w in
  if negb (truthy (optTrim (fullName req))) then
    bad_request "Full name is required"
  else if negb (truthy (optTrim (email req))) then
    bad_request "Email is required"
  else if negb (validateEmail (email req)) then
    bad_request "Invalid email format"
  else if negb (truthy (optTrim (phone req))) then
    bad_request "Phone number is required"
  else if negb (validatePhone (phone req)) then
    bad_request "Phone number must be exactly 10 digits"
  else if truthy (linkedin req) && negb (validateLinkedIn (linkedin req)) then
    bad_request "Invalid LinkedIn URL format"
  else
    match uploadedFile with
    | None => bad_request "Resume file is required"
    | Some file => handler_persist env req file
    end.

Definition handler_try (env : Env) (req : Request) : M unit :=
  upload_step env req ;;
  handler_body env req.

Definition handler_catch (env : Env) (error : JsError) : M unit :=
  console_log (LogApiError error) ;;
  w <- get ;;
  match req_file w with
  | Some file =>
      try_catch (unlinkSync (cleanup_unlink_fault env) (path file))
        (fun cleanupError => console_log (LogCleanupError cleanupError))
  | None => ret tt
  end ;;
  send 500 (ErrorBody (js "Internal server error")).

Definition handler (env : Env) (req : Request) : M unit :=
  if negb (value_eqb (method req) (Some (js "POST"))) then
    send 405 (ErrorBody (js "Method Not Allowed"))
  else
    try_catch (handler_try env req) (handler_catch env).

(** One request served against a store: the response object and [req.file]
    start out empty.  The run is that of one request on its own: nothing
    else writes to the store between its steps (the handler awaits at the
    upload, at each lookup and at the creation, and requests running
    side by side are not part of this model). *)
Definition serve (env : Env) (req : Request) (s : Store) : Result unit * World :=
  handler env req {| store := s; res := None; req_file := None |}.

Definition response_of (env : Env) (req : Request) (s : Store) : option Response :=
  res (snd (serve env req s)).

Definition store_after (env : Env) (req : Request) (s : Store) : Store :=
  store (snd (serve env req s)).

(** ** The properties in the words of the specification *)

(** The shape of an email address: one or more characters that are neither
    white space nor [@], an [@], one or more such characters, a dot, one or
    more such characters. *)
Definition plain (s : jsstring) : Prop :=
  s <> [] /\ Forall (fun c => not_space_or_at c = true) s.

Definition email_shape (s : jsstring) : Prop :=
  exists loc dom tld,
    plain loc /\ plain dom /\ plain tld /\
    s = loc ++ [cu "@"] ++ dom ++ [cu "."] ++ tld.

Definition is_digit (c : code_unit) : Prop := (cu "0" <= c <= cu "9")%N.

(** Exactly ten decimal digits. *)
Definition ten_digits (s : jsstring) : Prop :=
  List.length s = 10%nat /\ Forall is_digit s.

(** The two email checks and the two phone checks of the handler taken
    together. *)
Definition email_passes (v : value) : bool :=
  truthy (optTrim v) && validateEmail v.

Definition phone_passes (v : value) : bool :=
  truthy (optTrim v) && validatePhone v.

(** A character of the class [[A-Za-z0-9.-]]. *)
Definition safe_char (c : code_unit) : Prop :=
  (cu "a" <= c <= cu "z")%N \/ (cu "A" <= c <= cu "Z")%N \/
  (cu "0" <= c <= cu "9")%N \/ c = cu "." \/ c = cu "-".

(** Sanitization, character by character. *)
Definition sanitized_char (c d : code_unit) : Prop :=
  (safe_char c /\ d = c) \/ (~ safe_char c /\ d = cu "_").

(** The field checks, one per field, in the order of the specification:
    full name, email, phone, linkedin, file present. *)
Definition check_full_name (req : Request) : option string :=
  if truthy (optTrim (fullName req)) then None
  else Some "Full name is required"%string.

Definition check_email (req : Request) : option string :=
  if negb (truthy (optTrim (email req))) then Some "Email is required"%string
  else if validateEmail (email req) then None
  else Some "Invalid email format"%string.

Definition check_phone (req : Request) : option string :=
  if negb (truthy (optTrim (phone req))) then Some "Phone number is required"%string
  else if validatePhone (phone req) then None
  else Some "Phone number must be exactly 10 digits"%string.

Definition check_linkedin (req : Request) : option string :=
  if truthy (linkedin req) && negb (validateLinkedIn (linkedin req))
  then Some "Invalid LinkedIn URL format"%string
  else None.

Definition check_file (stored : option StoredFile) : option string :=
  match stored with
  | Some _ => None
  | None => Some "Resume file is required"%string
  end.

Fixpoint first_violation (checks : list (option string)) : option string :=
  match checks with
  | [] => None
  | Some m :: _ => Some m
  | None :: rest => first_violation rest
  end.

Definition text_checks (req : Request) : list (option string) :=
  [ check_full_name req; check_email req; check_phone req; check_linkedin req ].

Definition field_checks (req : Request) (stored : option StoredFile)
  : list (option string) :=
  text_checks req ++ [ check_file stored ].

(** ** Conditions and states of a run *)

(** The upload step goes through: multer has no fault of its own, and the
    file part, when there is one, is of an allowed type and within the size
    limit. *)
Definition upload_passes (env : Env) (req : Request) : Prop :=
  upload_fault env = None /\
  match resume req with
  | None => True
  | Some file => fileFilter file = None /\ (size file <= fileSize_limit)%N
  end.

(** [req.file] after an upload that went through. *)
Definition uploaded (env : Env) (req : Request) : option StoredFile :=
  option_map (stored_file env) (resume req).

(** The files of the store after an upload that went through. *)
Definition files_with_upload (env : Env) (req : Request) (fs : list jsstring)
  : list jsstring :=
  match uploaded env req with
  | Some f => add_file (path f) fs
  | None => fs
  end.

Definition is_POST (req : Request) : Prop := method req = Some (js "POST").

Definition error_response (st : Z) (m : string) : option Response :=
  Some {| status := st; body := ErrorBody (js m) |}.

(** The state the [try] block is in once an upload has gone through. *)
Definition after_upload (env : Env) (req : Request) (s : Store) : World :=
  {| store := {| table := table s;
                 files := files_with_upload env req (files s);
                 console := console s |};
     res := None;
     req_file := uploaded env req |}.

(** The same state with a response sent. *)
Definition responded (w : World) (r : option Response) : World :=
  {| store := store w; res := r; req_file := req_file w |}.

(** The record of an accepted submission, field by field: the full name
    trimmed, the email trimmed and lower-cased, the phone trimmed, the
    linkedin trimmed, or absent when the field was absent or empty, and the
    path of the stored file relative to the store. *)
Definition expected_record (new_id : Z) (name em ph : jsstring)
    (li : value) (file : StoredFile) : Prisma.Applicant :=
  {| Prisma.id := new_id;
     Prisma.full_name := trim name;
     Prisma.email := toLowerCase (trim em);
     Prisma.phone := trim ph;
     Prisma.linkedin :=
       match li with
       | None => None
       | Some [] => None
       | Some l => Some (trim l)
       end;
     Prisma.resume_path := Some (js "resumes/" ++ filename file) |}.

(** The row [create] is handed by the handler. *)
Definition created_row (req : Request) (file : StoredFile) (t : Prisma.Table)
    (name em ph : jsstring) : Prisma.Applicant :=
  {| Prisma.id := Prisma.next_id t;
     Prisma.full_name := trim name;
     Prisma.email := toLowerCase (trim em);
     Prisma.phone := trim ph;
     Prisma.linkedin :=
       if truthy (optTrim (linkedin req)) then optTrim (linkedin req) else None;
     Prisma.resume_path := Some (js "resumes/" ++ filename file) |}.

(** The state a run ends in when the submission is accepted. *)
Definition accepted_world (env : Env) (req : Request) (s : Store)
    (row : Prisma.Applicant) : World :=
  {| store :=
       {| table := {| Prisma.rows := Prisma.rows (table s) ++ [row];
                      Prisma.next_id := (Prisma.next_id (table s) + 1)%Z |};
          files := files_with_upload env req (files s);
          console := console s ++ [LogCreated (Prisma.id row) (email req)] |};
     res := Some {| status := 200;
                    body := SuccessBody (js "Application submitted successfully!")
                                        (Prisma.id row) |};
     req_file := uploaded env req |}.

(** The conditions under which the duplicate checks and the creation go
    through. *)
Definition no_db_fault (env : Env) : Prop :=
  findFirst_email_fault env = None /\
  findFirst_phone_fault env = None /\
  create_fault env = None.

Definition no_duplicate (req : Request) (t : Prisma.Table) : Prop :=
  Prisma.findFirst Prisma.email (email req) t = None /\
  Prisma.findFirst Prisma.phone (phone req) t = None.

(** ** Sample data *)

Definition sample_env : Env :=
  {| cwd := js "/app";
     Date_now := 1700000000000;
     upload_fault := None;
     findFirst_email_fault := None;
     findFirst_phone_fault := None;
     create_fault := None;
     unlink_fault := None;
     cleanup_unlink_fault := None |}.

Definition EPERM : JsError :=
  {| code := Some (js "EPERM"); message := js "operation not permitted" |}.

(** The same surroundings, with the deletion of a duplicate branch failing. *)
Definition sample_env_unlink_fails : Env :=
  {| cwd := js "/app";
     Date_now := 1700000000000;
     upload_fault := None;
     findFirst_email_fault := None;
     findFirst_phone_fault := None;
     create_fault := None;
     unlink_fault := Some EPERM;
     cleanup_unlink_fault := Some EPERM |}.

Definition sample_file : FilePart :=
  {| originalname := js "my cv(1).pdf";
     mimetype := js "application/pdf";
     size := 1000 |}.

Definition sample_request (m : string) (name em ph li : value) : Request :=
  {| method := Some (js m);
     fullName := name;
     email := em;
     phone := ph;
     linkedin := li;
     resume := Some sample_file |}.

(** A table with one applicant, accepted earlier with the email [a@b.com]. *)
Definition sample_store : Store :=
  {| table :=
       {| Prisma.rows :=
            [ {| Prisma.id := 1;
                 Prisma.full_name := js "Bo Chen";
                 Prisma.email := js "a@b.com";
                 Prisma.phone := js "5550001111";
                 Prisma.linkedin := None;
                 Prisma.resume_path := Some (js "resumes/1690000000000-bo.pdf") |} ];
          Prisma.next_id := 2 |};
     files := [ js "/app/resumes/1690000000000-bo.pdf" ];
     console := [] |}.

(** A stand-in for the case tables of the runtime; the sample data are all
    Basic Latin, where it is never consulted. *)
Definition no_case_table (s : jsstring) : jsstring := s.

Definition missing_name_request : Request :=
  sample_request "POST" None (Some (js "not an email")) (Some (js "12")) None.

Definition bad_phone_request : Request :=
  sample_request "POST" (Some (js "Ann Lee")) (Some (js "ann@example.com"))
    (Some (js "123-456-7890")) None.

Definition bad_email_request : Request :=
  sample_request "POST" (Some (js "Ann Lee")) (Some (js "ann.example.com"))
    (Some (js "1234567890")) None.

Definition good_request : Request :=
  sample_request "POST" (Some (js " Ann Lee ")) (Some (js "Ann@Example.com"))
    (Some (js "1234567890")) (Some (js "https://www.LinkedIn.com/in/ann")).

(** The email of the stored applicant, in another case. *)
Definition other_case_request : Request :=
  sample_request "POST" (Some (js "Ann Lee")) (Some (js "A@B.com"))
    (Some (js "1234567890")) None.

(** The email of the stored applicant, as stored. *)
Definition duplicate_request : Request :=
  sample_request "POST" (Some (js "Ann Lee")) (Some (js "a@b.com"))
    (Some (js "1234567890")) None.

(** ** components/Form.tsx: the checks of [handleSubmit] *)

(** A [File] of the browser. *)
Record BrowserFile : Type := {
  file_name : jsstring;
  file_type : jsstring;
  file_size : N
}.

(** The named inputs of the form, as [FormData] reads them (an input left
    empty is the empty string), and the [selectedFile] state. *)
Record FormInput : Type := {
  input_fullName : jsstring;
  input_email : jsstring;
  input_phone : jsstring;
  input_linkedin : jsstring;
  selectedFile : option BrowserFile
}.

(** The client-side validations of [handleSubmit], in order: [Some status]
    is the status it sets before returning, [None] lets the submission go
    on to [fetch]. *)
Definition client_validations (i : FormInput) : option string :=
  if negb (truthy (Some (trim (input_fullName i)))) then
    Some "Full Name is required."%string
  else if negb (test emailRegex (input_email i)) then
    Some "Invalid email address."%string
  else if negb (test phoneRegex (input_phone i)) then
    Some "Phone number must be 10 digits."%string
  else
    match selectedFile i with
    | None => Some "Resume file is required."%string
    | Some file =>
        if negb (existsb (jsstring_eqb (file_type file)) allowedMimeTypes) then
          Some "Only PDF or DOCX files are allowed."%string
        else if (5 * 1024 * 1024 <? file_size file)%N then
          Some "File size should not exceed 5MB."%string
        else None
    end.

(** The file part the browser makes of a [File] set under [resume]. *)
Definition file_part (file : BrowserFile) : FilePart :=
  {| originalname := file_name file;
     mimetype := file_type file;
     size := file_size file |}.

(** The request [fetch('/api/apply', { method: 'POST', body: formData })]
    sends: the four named inputs and the file set under [resume]. *)
Definition form_request (i : FormInput) : Request :=
  {| method := Some (js "POST");
     fullName := Some (input_fullName i);
     email := Some (input_email i);
     phone := Some (input_phone i);
     linkedin := Some (input_linkedin i);
     resume := option_map file_part (selectedFile i) |}.

(** ** Further conditions and sample data *)

(** The same surroundings with another fate for the deletion of the
    [catch] block. *)
Definition with_cleanup_fault (env : Env) (f : option JsError) : Env :=
  {| cwd := cwd env;
     Date_now := Date_now env;
     upload_fault := upload_fault env;
     findFirst_email_fault := findFirst_email_fault env;
     findFirst_phone_fault := findFirst_phone_fault env;
     create_fault := create_fault env;
     unlink_fault := unlink_fault env;
     cleanup_unlink_fault := f |}.

(** No external call throws. *)
Definition no_fault (env : Env) : Prop :=
  upload_fault env = None /\ no_db_fault env /\
  unlink_fault env = None /\ cleanup_unlink_fault env = None.

Definition basic_or_space (c : code_unit) : bool :=
  isBasicLatin c || isWhiteSpace c.

Definition phones (t : Prisma.Table) : list jsstring :=
  map Prisma.phone (Prisma.rows t).

Definition emails (t : Prisma.Table) : list jsstring :=
  map Prisma.email (Prisma.rows t).

Definition status_of (r : option Response) : option Z :=
  option_map status r.

(** The error multer calls back with, if any: its own fault, the refusal of
    [fileFilter], or the size limit. *)
Definition upload_error (env : Env) (req : Request) : option JsError :=
  match upload_fault env with
  | Some e => Some e
  | None =>
      match resume req with
      | None => None
      | Some file =>
          match fileFilter file with
          | Some e => Some e
          | None =>
              if (fileSize_limit <? size file)%N then Some LIMIT_FILE_SIZE
              else None
          end
      end
  end.

(** The upload directory after an upload that failed: as it was, except
    that an oversize part, written and removed again, leaves nothing at the
    path generated for it. *)
Definition files_after_refusal (env : Env) (req : Request)
    (fs : list jsstring) : list jsstring :=
  match upload_fault env, resume req with
  | None, Some file =>
      match fileFilter file with
      | Some _ => fs
      | None =>
          if (fileSize_limit <? size file)%N
          then remove_file (path (stored_file env file)) fs
          else fs
      end
  | _, _ => fs
  end.

(** The response the promise around the upload sends for an error. *)
Definition upload_error_response (err : JsError) : Response :=
  if value_eqb (code err) (Some (js "LIMIT_FILE_SIZE")) then
    {| status := 400;
       body := ErrorBody (js "File size too large. Maximum 5MB allowed.") |}
  else if jsstring_eqb (message err) filter_message then
    {| status := 400; body := ErrorBody (message err) |}
  else
    {| status := 500; body := ErrorBody (js "File upload failed") |}.

(** The state a run ends in when a duplicate is found and the file deleted. *)
Definition duplicate_world (env : Env) (req : Request) (s : Store)
    (file : StoredFile) (m : string) : World :=
  {| store := {| table := table s;
                 files := remove_file (path file)
                            (files_with_upload env req (files s));
                 console := console s |};
     res := error_response 400 m;
     req_file := Some file |}.

(** The state a run ends in when the [try] block has thrown [e] after the
    upload. *)
Definition caught_world (env : Env) (req : Request) (s : Store)
    (file : StoredFile) (e : JsError) : World :=
  {| store :=
       match cleanup_unlink_fault env with
       | None =>
           {| table := table s;
              files := remove_file (path file)
                         (files_with_upload env req (files s));
              console := console s ++ [LogApiError e] |}
       | Some e' =>
           {| table := table s;
              files := files_with_upload env req (files s);
              console := (console s ++ [LogApiError e]) ++ [LogCleanupError e'] |}
       end;
     res := error_response 500 "Internal server error";
     req_file := Some file |}.

(** What the handler guarantees of a row it creates: a phone of ten digits,
    a full name that is not empty, a linkedin that is not empty when there
    is one, and a resume path under [resumes/]. *)
Definition well_formed_row (a : Prisma.Applicant) : Prop :=
  ten_digits (Prisma.phone a) /\
  Prisma.full_name a <> [] /\
  match Prisma.linkedin a with
  | Some l => l <> []
  | None => True
  end /\
  exists name, Prisma.resume_path a = Some (js "resumes/" ++ name).

Definition text_file : FilePart :=
  {| originalname := js "notes.txt"; mimetype := js "text/plain"; size := 1000 |}.

Definition big_file : FilePart :=
  {| originalname := js "cv.pdf";
     mimetype := js "application/pdf";
     size := 6 * 1024 * 1024 |}.

(** Requests with no usable text field and a file the upload step refuses. *)
Definition text_file_request : Request :=
  {| method := Some (js "POST"); fullName := None; email := None;
     phone := None; linkedin := None; resume := Some text_file |}.

Definition big_file_request : Request :=
  {| method := Some (js "POST"); fullName := None; email := None;
     phone := None; linkedin := None; resume := Some big_file |}.

(** The sample surroundings a minute later. *)
Definition sample_env_later : Env :=
  {| cwd := js "/app";
     Date_now := 1700000060000;
     upload_fault := None;
     findFirst_email_fault := None;
     findFirst_phone_fault := None;
     create_fault := None;
     unlink_fault := None;
     cleanup_unlink_fault := None |}.

Definition sample_form : FormInput :=
  {| input_fullName := js " Ann Lee ";
     input_email := js "Ann@Example.com";
     input_phone := js "1234567890";
     input_linkedin := js "";
     selectedFile :=
       Some {| file_name := js "my cv(1).pdf";
               file_type := js "application/pdf";
               file_size := 1000 |} |}.

Definition lower_case_request : Request :=
  sample_request "POST" (Some (js "Ann Lee")) (Some (js "ann@example.com"))
    (Some (js "1234567890")) None.

(** The surroundings with [create] failing and the deletion going through. *)
Definition sample_env_create_fails : Env :=
  {| cwd := js "/app";
     Date_now := 1700000000000;
     upload_fault := None;
     findFirst_email_fault := None;
     findFirst_phone_fault := None;
     create_fault := Some {| code := Some (js "P1001");
                             message := js "cannot reach database server" |};
     unlink_fault := None;
     cleanup_unlink_fault := None |}.

(** ** Trimming and lower-casing, in the words of the specification *)

(** The white space of ECMAScript, code point by code point: TAB, LF, VT,
    FF, CR, SP, NBSP, U+1680, U+2000 to U+200A, LS, PS, U+202F, U+205F,
    U+3000 and the byte order mark. *)
Definition white_space (c : code_unit) : Prop :=
  In c [ 9; 10; 11; 12; 13; 32; 160; 5760;
         8192; 8193; 8194; 8195; 8196; 8197; 8198; 8199; 8200; 8201; 8202;
         8232; 8233; 8239; 8287; 12288; 65279 ]%N.

(** A string that neither begins nor ends with white space. *)
Definition no_space_at_ends (t : jsstring) : Prop :=
  (forall c r, t = c :: r -> ~ white_space c) /\
  (forall r c, t = r ++ [c] -> ~ white_space c).

(** [t] is [s] with the surrounding white space taken off: [s] is [t]
    between two runs of white space, and [t] has none at its ends. *)
Definition trimmed_of (s t : jsstring) : Prop :=
  exists pre post,
    s = pre ++ t ++ post /\
    Forall white_space pre /\ Forall white_space post /\
    no_space_at_ends t.

(** Lower-casing of one Basic Latin character: [A]-[Z] go to [a]-[z], the
    others stay. *)
Definition lower_of (c d : code_unit) : Prop :=
  ((65 <= c <= 90)%N /\ d = (c + 32)%N) \/ (~ (65 <= c <= 90)%N /\ d = c).

(** [d] is [t] lower-cased: character by character when [t] is made of
    Basic Latin characters and white space, by the case tables of the
    runtime otherwise. *)
Definition lower_cased_of (t d : jsstring) : Prop :=
  (Forall (fun c => (c < 128)%N \/ white_space c) t -> Forall2 lower_of t d) /\
  (~ Forall (fun c => (c < 128)%N \/ white_space c) t ->
   d = unicodeToLowerCase t).

(** A submission with white space around the full name and the linkedin. *)
Definition spaced_request : Request :=
  sample_request "POST" (Some (js "  Ann Lee ")) (Some (js "Ann@Example.com"))
    (Some (js "1234567890")) (Some (js " https://www.LinkedIn.com/in/ann  ")).

(** Requests handled one after the other, each one run to its end before
    the next one starts: the store after the last one. *)
Fixpoint serve_all (runs : list (Env * Request)) (s : Store) : Store :=
  match runs with
  | [] => s
  | (env, req) :: rest => serve_all rest (store_after env req s)
  end.

(** ** Regular expressions: the matcher decides the language *)

Lemma nullable_Matches (r : regex) : nullable r = true <-> Matches r [].
Proof.
  split.
  - induction r; simpl; intros H; try discriminate.
    + constructor.
    + apply andb_true_iff in H as [H1 H2].
      change (@nil code_unit) with (@nil code_unit ++ []).
      constructor; auto.
    + apply orb_true_iff in H as [H | H]; [ apply MAltL | apply MAltR ]; auto.
    + constructor.
  - intros H. remember [] as s eqn:Es.
    induction H; simpl; auto; try discriminate.
    + apply app_eq_nil in Es as [E1 E2].
      rewrite IHMatches1, IHMatches2; auto.
    + rewrite IHMatches; auto.
    + rewrite IHMatches; auto using orb_true_r.
Qed.

Lemma deriv_sound (c : code_unit) (r : regex) :
  forall s, Matches (deriv c r) s -> Matches r (c :: s).
Proof.
  induction r; simpl; intros s H.
  - inversion H.
  - inversion H.
  - destruct (b c) eqn:E; inversion H; subst. now constructor.
  - destruct (nullable r1) eqn:N.
    + inversion H; subst.
      * match goal with
        | [ H' : Matches (Cat _ _) _ |- _ ] => inversion H'; subst
        end.
        change (c :: s1 ++ s2) with ((c :: s1) ++ s2).
        constructor; auto.
      * change (c :: s) with ([] ++ c :: s).
        constructor; auto. now apply nullable_Matches.
    + inversion H; subst.
      change (c :: s1 ++ s2) with ((c :: s1) ++ s2).
      constructor; auto.
  - inversion H; subst; [ apply MAltL | apply MAltR ]; auto.
  - inversion H; subst.
    change (c :: s1 ++ s2) with ((c :: s1) ++ s2).
    constructor; auto.
Qed.

Lemma deriv_complete (c : code_unit) (r : regex) (cs : jsstring) :
  Matches r cs -> forall t, cs = c :: t -> Matches (deriv c r) t.
Proof.
  induction 1 as [ | p c0 Hp | r1 r2 s1 s2 H1 IH1 H2 IH2 | r1 r2 s0 H1 IH1
                 | r1 r2 s0 H1 IH1 | r0 | r0 s1 s2 H1 IH1 H2 IH2 ];
    intros t E; simpl.
  - discriminate.
  - injection E as -> <-. rewrite Hp. constructor.
  - destruct s1 as [| c1 s1'].
    + simpl in E. subst s2.
      assert (N : nullable r1 = true) by now apply nullable_Matches.
      rewrite N. apply MAltR. auto.
    + simpl in E. injection E as -> <-.
      assert (D : Matches (Cat (deriv c r1) r2) (s1' ++ s2))
        by (constructor; auto).
      destruct (nullable r1); [ now apply MAltL | exact D ].
  - apply MAltL; auto.
  - apply MAltR; auto.
  - discriminate.
  - destruct s1 as [| c1 s1'].
    + simpl in E. auto.
    + simpl in E. injection E as -> <-.
      constructor; auto.
Qed.

Lemma test_Matches (s : jsstring) :
  forall r, test r s = true <-> Matches r s.
Proof.
  induction s as [| c s IH]; intros r; simpl.
  - apply nullable_Matches.
  - rewrite IH. split.
    + apply deriv_sound.
    + intros H. now apply deriv_complete with (cs := c :: s).
Qed.

(** ** The languages of the two patterns *)

Lemma Matches_Cat (r1 r2 : regex) (s : jsstring) :
  Matches (Cat r1 r2) s <->
  exists s1 s2, s = s1 ++ s2 /\ Matches r1 s1 /\ Matches r2 s2.
Proof.
  split.
  - intros H. inversion H; subst. eauto.
  - intros (s1 & s2 & -> & H1 & H2). now constructor.
Qed.

Lemma Matches_Class (p : code_unit -> bool) (s : jsstring) :
  Matches (Class p) s <-> exists c, s = [c] /\ p c = true.
Proof.
  split.
  - intros H. inversion H; subst. eauto.
  - intros (c & -> & H). now constructor.
Qed.

Lemma Matches_Char (a : ascii) (s : jsstring) :
  Matches (Char a) s <-> s = [cu a].
Proof.
  unfold Char. rewrite Matches_Class. split.
  - intros (c & -> & H). apply N.eqb_eq in H. now subst.
  - intros ->. exists (cu a). split; auto. apply N.eqb_refl.
Qed.

Lemma Matches_Star_Class (p : code_unit -> bool) (s : jsstring) :
  Matches (Star (Class p)) s <-> Forall (fun c => p c = true) s.
Proof.
  split.
  - intros H. remember (Star (Class p)) as r eqn:Er.
    induction H; try discriminate; injection Er as ->.
    + constructor.
    + apply Matches_Class in H as (c & -> & Hc).
      simpl. constructor; auto.
  - induction 1 as [| c t Hc _ IH].
    + constructor.
    + change (c :: t) with ([c] ++ t).
      constructor; auto. now constructor.
Qed.

Lemma Matches_Plus_Class (p : code_unit -> bool) (s : jsstring) :
  Matches (Plus (Class p)) s <->
  s <> [] /\ Forall (fun c => p c = true) s.
Proof.
  unfold Plus. rewrite Matches_Cat. split.
  - intros (s1 & s2 & -> & H1 & H2).
    apply Matches_Class in H1 as (c & -> & Hc).
    apply Matches_Star_Class in H2.
    split; [ discriminate | constructor; auto ].
  - intros [Hne H]. destruct H as [| c t Hc Ht]; [ congruence | ].
    exists [c], t. repeat split.
    + now constructor.
    + now apply Matches_Star_Class.
Qed.

Lemma Matches_Repeat_Class (p : code_unit -> bool) (n : nat) :
  forall s, Matches (Repeat n (Class p)) s <->
            List.length s = n /\ Forall (fun c => p c = true) s.
Proof.
  induction n as [| n IH]; intros s; simpl.
  - split.
    + intros H. inversion H; subst. split; auto.
    + intros [H _]. apply length_zero_iff_nil in H. subst. constructor.
  - rewrite Matches_Cat. split.
    + intros (s1 & s2 & -> & H1 & H2).
      apply Matches_Class in H1 as (c & -> & Hc).
      apply IH in H2 as [L F]. simpl. split; [ congruence | constructor; auto ].
    + intros [L F]. destruct F as [| c t Hc Ht]; [ discriminate | ].
      exists [c], t. repeat split.
      * now constructor.
      * apply IH. split; [ simpl in L; congruence | assumption ].
Qed.

Lemma Matches_emailRegex (s : jsstring) :
  Matches emailRegex s <-> email_shape s.
Proof.
  unfold emailRegex, email_shape, plain. split.
  - intros H.
    apply Matches_Cat in H as (loc & s1 & -> & Hloc & H).
    apply Matches_Cat in H as (at_ & s2 & -> & Hat & H).
    apply Matches_Cat in H as (dom & s3 & -> & Hdom & H).
    apply Matches_Cat in H as (dot & tld & -> & Hdot & Htld).
    apply Matches_Char in Hat, Hdot. subst.
    apply Matches_Plus_Class in Hloc, Hdom, Htld.
    exists loc, dom, tld. auto.
  - intros (loc & dom & tld & Hloc & Hdom & Htld & ->).
    apply Matches_Plus_Class in Hloc, Hdom, Htld.
    repeat (apply MCat; auto); now apply Matches_Char.
Qed.

Lemma in_range_digit (c : code_unit) :
  in_range "0" "9" c = true <-> is_digit c.
Proof.
  unfold in_range, is_digit.
  rewrite andb_true_iff, !N.leb_le. reflexivity.
Qed.

Lemma Matches_phoneRegex (s : jsstring) :
  Matches phoneRegex s <-> ten_digits s.
Proof.
  unfold phoneRegex, ten_digits. rewrite Matches_Repeat_Class.
  split; intros [L F]; split; auto;
    eapply Forall_impl; try exact F; intros c; apply in_range_digit.
Qed.

(** ** Strings *)

Lemma jsstring_eqb_eq (a b : jsstring) : jsstring_eqb a b = true <-> a = b.
Proof.
  unfold jsstring_eqb. destruct (list_eq_dec N.eq_dec a b); split; auto.
  discriminate.
Qed.

Lemma jsstring_eqb_refl (a : jsstring) : jsstring_eqb a a = true.
Proof. now apply jsstring_eqb_eq. Qed.

Lemma jsstring_eqb_neq (a b : jsstring) : jsstring_eqb a b = false <-> a <> b.
Proof.
  unfold jsstring_eqb. destruct (list_eq_dec N.eq_dec a b); split; auto.
  - discriminate.
  - intros H. now elim H.
Qed.

Lemma value_eqb_eq (a b : value) : value_eqb a b = true <-> a = b.
Proof.
  destruct a as [x |], b as [y |]; simpl; try (split; [discriminate | congruence]).
  - rewrite jsstring_eqb_eq. split; congruence.
  - split; auto.
Qed.

Lemma dropWhile_head (p : code_unit -> bool) (c : code_unit) (s : jsstring) :
  p c = false -> dropWhile p (c :: s) = c :: s.
Proof. intros H. simpl. now rewrite H. Qed.

(** A string without white space is its own trimmed form. *)
Lemma trim_no_space (s : jsstring) :
  Forall (fun c => isWhiteSpace c = false) s -> trim s = s.
Proof.
  intros F. unfold trim, trimStart, trimEnd.
  assert (D : forall t, Forall (fun c => isWhiteSpace c = false) t ->
                        dropWhile isWhiteSpace t = t).
  { intros t Ft. destruct Ft as [| c t' Hc _]; auto using dropWhile_head. }
  rewrite (D s F), D.
  - apply rev_involutive.
  - now apply Forall_rev.
Qed.

Lemma digit_no_space (c : code_unit) : is_digit c -> isWhiteSpace c = false.
Proof.
  unfold is_digit, isWhiteSpace, cu. simpl N_of_ascii. intros [H1 H2].
  repeat match goal with
         | |- context [ (?a <=? ?b)%N ] =>
             destruct (N.leb_spec a b); try lia
         | |- context [ (?a =? ?b)%N ] =>
             destruct (N.eqb_spec a b); try lia
         end; reflexivity.
Qed.

Lemma plain_char_no_space (c : code_unit) :
  not_space_or_at c = true -> isWhiteSpace c = false.
Proof.
  unfold not_space_or_at. intros H.
  apply negb_true_iff, orb_false_iff in H. tauto.
Qed.

Lemma truthy_optTrim_no_space (s : jsstring) :
  s <> [] -> Forall (fun c => isWhiteSpace c = false) s ->
  optTrim (Some s) = Some s /\ truthy (optTrim (Some s)) = true.
Proof.
  intros Hne F. simpl. rewrite (trim_no_space F).
  split; auto. destruct s; [ congruence | reflexivity ].
Qed.

Lemma email_shape_no_space (s : jsstring) :
  email_shape s -> s <> [] /\ Forall (fun c => isWhiteSpace c = false) s.
Proof.
  intros (loc & dom & tld & [N1 F1] & [N2 F2] & [N3 F3] & ->).
  split.
  - destruct loc; [ congruence | discriminate ].
  - repeat (apply Forall_app; split);
      try (eapply Forall_impl; [ | eassumption ];
           intros c; apply plain_char_no_space);
      repeat constructor.
Qed.

Lemma ten_digits_no_space (s : jsstring) :
  ten_digits s -> s <> [] /\ Forall (fun c => isWhiteSpace c = false) s.
Proof.
  intros [L F]. split.
  - intros ->. discriminate.
  - eapply Forall_impl; [ | exact F ]. intros c. apply digit_no_space.
Qed.

Lemma validateEmail_shape (v : value) :
  validateEmail v = true <-> exists s, v = Some s /\ email_shape s.
Proof.
  unfold validateEmail. destruct v as [s |]; simpl ToString.
  - rewrite test_Matches, Matches_emailRegex. split; eauto.
    intros (t & [= <-] & H). exact H.
  - split; [ | intros (t & [=] & _) ].
    vm_compute. discriminate.
Qed.

Lemma validatePhone_digits (v : value) :
  validatePhone v = true <-> exists s, v = Some s /\ ten_digits s.
Proof.
  unfold validatePhone. destruct v as [s |]; simpl ToString.
  - rewrite test_Matches, Matches_phoneRegex. split; eauto.
    intros (t & [= <-] & H). exact H.
  - split; [ | intros (t & [=] & _) ].
    vm_compute. discriminate.
Qed.

Lemma email_passes_shape (v : value) :
  email_passes v = true <-> exists s, v = Some s /\ email_shape s.
Proof.
  unfold email_passes. rewrite andb_true_iff, validateEmail_shape. split.
  - tauto.
  - intros (s & -> & H). split; eauto.
    apply email_shape_no_space in H as [N F].
    now apply truthy_optTrim_no_space.
Qed.

Lemma phone_passes_digits (v : value) :
  phone_passes v = true <-> exists s, v = Some s /\ ten_digits s.
Proof.
  unfold phone_passes. rewrite andb_true_iff, validatePhone_digits. split.
  - tauto.
  - intros (s & -> & H). split; eauto.
    apply ten_digits_no_space in H as [N F].
    now apply truthy_optTrim_no_space.
Qed.

(** ** Running the handler *)

Ltac run_in H :=
  cbv beta iota zeta delta
    [handler handler_try handler_body handler_catch upload_step upload_single
     faulty bind ret throw try_catch get modify_store console_log send
     bad_request findFirst create unlinkSync call_trim serve response_of
     store_after error_response responded after_upload fst snd] in H;
  cbn [store res req_file table files console code message fst snd] in H.

Ltac run :=
  cbv beta iota zeta delta
    [handler handler_try handler_body handler_catch upload_step upload_single
     faulty bind ret throw try_catch get modify_store console_log send
     bad_request findFirst create unlinkSync call_trim serve response_of
     store_after error_response responded after_upload fst snd];
  cbn [store res req_file table files console code message fst snd].

Lemma POST_eqb (req : Request) :
  is_POST req -> value_eqb (method req) (Some (js "POST")) = true.
Proof. intros H. now apply value_eqb_eq. Qed.

Lemma size_within_limit (file : FilePart) :
  (size file <= fileSize_limit)%N -> (fileSize_limit <? size file)%N = false.
Proof. intros H. apply N.ltb_ge. exact H. Qed.

Lemma upload_step_passes (env : Env) (req : Request) (s : Store) :
  upload_passes env req ->
  upload_step env req {| store := s; res := None; req_file := None |}
  = (Ok tt, after_upload env req s).
Proof.
  intros [Hf Hr]. unfold after_upload, files_with_upload, uploaded.
  run. rewrite Hf.
  destruct (resume req) as [file |]; simpl.
  - destruct Hr as [Hfilter Hsize].
    rewrite Hfilter, (size_within_limit _ Hsize). reflexivity.
  - destruct s; reflexivity.
Qed.

Lemma serve_after_upload (env : Env) (req : Request) (s : Store) :
  is_POST req -> upload_passes env req ->
  serve env req s
  = try_catch (handler_body env req) (handler_catch env) (after_upload env req s).
Proof.
  intros HP HU. unfold serve, handler, handler_try.
  rewrite (POST_eqb HP). cbv beta iota delta [negb try_catch bind].
  rewrite (upload_step_passes s HU). reflexivity.
Qed.

Lemma handler_body_violation (env : Env) (req : Request) (s : Store) (m : string) :
  first_violation (field_checks req (uploaded env req)) = Some m ->
  handler_body env req (after_upload env req s)
  = (Ok tt, responded (after_upload env req s) (error_response 400 m)).
Proof.
  unfold field_checks, text_checks, check_full_name, check_email, check_phone,
    check_linkedin, check_file.
  intros H. unfold after_upload, responded. run.
  destruct (truthy (optTrim (fullName req))); simpl in H |- *;
    [ | injection H as <-; reflexivity ].
  destruct (truthy (optTrim (email req))); simpl in H |- *;
    [ | injection H as <-; reflexivity ].
  destruct (validateEmail (email req)); simpl in H |- *;
    [ | injection H as <-; reflexivity ].
  destruct (truthy (optTrim (phone req))); simpl in H |- *;
    [ | injection H as <-; reflexivity ].
  destruct (validatePhone (phone req)); simpl in H |- *;
    [ | injection H as <-; reflexivity ].
  destruct (truthy (linkedin req) && negb (validateLinkedIn (linkedin req)));
    simpl in H |- *; [ injection H as <-; reflexivity | ].
  destruct (uploaded env req); simpl in H |- *;
    [ discriminate | injection H as <-; reflexivity ].
Qed.

Lemma handler_body_valid (env : Env) (req : Request) (w : World) :
  first_violation (field_checks req (req_file w)) = None ->
  exists file, req_file w = Some file /\
               handler_body env req w = handler_persist env req file w.
Proof.
  unfold field_checks, text_checks, check_full_name, check_email, check_phone,
    check_linkedin, check_file.
  intros H. unfold handler_body, bind, get.
  destruct (truthy (optTrim (fullName req))); simpl in H |- *; try discriminate.
  destruct (truthy (optTrim (email req))); simpl in H |- *; try discriminate.
  destruct (validateEmail (email req)); simpl in H |- *; try discriminate.
  destruct (truthy (optTrim (phone req))); simpl in H |- *; try discriminate.
  destruct (validatePhone (phone req)); simpl in H |- *; try discriminate.
  destruct (truthy (linkedin req) && negb (validateLinkedIn (linkedin req)));
    simpl in H |- *; try discriminate.
  destruct (req_file w) as [file |]; try discriminate.
  exists file. split; reflexivity.
Qed.

(** Helper: a failed field check ends the request with that check's message,
    the table untouched and the uploaded file still in the store. *)
Lemma serve_violation (env : Env) (req : Request) (s : Store) (m : string) :
  is_POST req -> upload_passes env req ->
  first_violation (field_checks req (uploaded env req)) = Some m ->
  serve env req s
  = (Ok tt, responded (after_upload env req s) (error_response 400 m)).
Proof.
  intros HP HU HV. rewrite (serve_after_upload s HP HU).
  unfold try_catch. now rewrite (@handler_body_violation env req s m HV).
Qed.

Lemma serve_valid (env : Env) (req : Request) (s : Store) :
  is_POST req -> upload_passes env req ->
  first_violation (field_checks req (uploaded env req)) = None ->
  exists file,
    uploaded env req = Some file /\
    serve env req s
    = try_catch (handler_persist env req file) (handler_catch env)
        (after_upload env req s).
Proof.
  intros HP HU HV. rewrite (serve_after_upload s HP HU).
  destruct (@handler_body_valid env req (after_upload env req s) HV)
    as (file & Hfile & Hbody).
  exists file. split; [ exact Hfile | ].
  unfold try_catch. now rewrite Hbody.
Qed.

Lemma has_file_add (p : jsstring) (fs : list jsstring) :
  has_file p (add_file p fs) = true.
Proof.
  unfold add_file. destruct (has_file p fs) eqn:E; auto.
  unfold has_file. simpl. now rewrite jsstring_eqb_refl.
Qed.

Lemma has_file_remove (p : jsstring) (fs : list jsstring) :
  has_file p (remove_file p fs) = false.
Proof.
  unfold has_file, remove_file. induction fs as [| q fs IH]; simpl; auto.
  destruct (jsstring_eqb p q) eqn:E; simpl; auto.
  now rewrite E.
Qed.

Lemma has_file_uploaded (env : Env) (req : Request) (fs : list jsstring)
    (file : StoredFile) :
  uploaded env req = Some file ->
  has_file (path file) (files_with_upload env req fs) = true.
Proof.
  intros H. unfold files_with_upload. rewrite H. apply has_file_add.
Qed.

(** The [catch] block always ends in the internal-error response. *)
Ltac caught :=
  repeat match goal with
         | |- context [ cleanup_unlink_fault ?env ] =>
             destruct (cleanup_unlink_fault env); run
         | |- context [ if has_file ?p ?fs then _ else _ ] =>
             destruct (has_file p fs); run
         end;
  repeat right; reflexivity.

Lemma persist_cases (env : Env) (req : Request) (s : Store) (file : StoredFile) :
  uploaded env req = Some file ->
  let out := try_catch (handler_persist env req file) (handler_catch env)
               (after_upload env req s) in
  (no_db_fault env /\ no_duplicate req (table s) /\
   exists name em ph,
     fullName req = Some name /\ email req = Some em /\ phone req = Some ph /\
     out = (Ok tt, accepted_world env req s
                     (created_row req file (table s) name em ph)))
  \/ res (snd out)
     = error_response 400 "An application with this email already exists"
  \/ res (snd out)
     = error_response 400 "An application with this phone number already exists"
  \/ res (snd out) = error_response 500 "Internal server error".
Proof.
  intros Hfile out. subst out.
  pose proof (has_file_uploaded env req (files s) Hfile) as Hhas.
  unfold no_db_fault, no_duplicate, accepted_world, created_row.
  unfold handler_persist, after_upload. run. rewrite Hfile.
  destruct (findFirst_email_fault env) eqn:F1; run; [ caught | ].
  destruct (Prisma.findFirst Prisma.email (email req) (table s)) eqn:D1; run.
  { destruct (unlink_fault env) eqn:U; run; [ caught | ].
    rewrite Hhas. run. right; left; reflexivity. }
  destruct (findFirst_phone_fault env) eqn:F2; run; [ caught | ].
  destruct (Prisma.findFirst Prisma.phone (phone req) (table s)) eqn:D2; run.
  { destruct (unlink_fault env) eqn:U; run; [ caught | ].
    rewrite Hhas. run. right; right; left; reflexivity. }
  destruct (fullName req) as [name |] eqn:E1; run; [ | caught ].
  destruct (email req) as [em |] eqn:E2; run; [ | caught ].
  destruct (phone req) as [ph |] eqn:E3; run; [ | caught ].
  destruct (create_fault env) eqn:F3; run; [ caught | ].
  left. repeat split; auto.
  exists name, em, ph. repeat split; auto.
Qed.

(** An upload that does not go through is answered with an upload error;
    the second response of the [catch] block is never sent. *)
Lemma serve_upload_fails (env : Env) (req : Request) (s : Store) :
  is_POST req -> ~ upload_passes env req ->
  exists st m,
    (st = 400 \/ st = 500)%Z /\
    response_of env req s = Some {| status := st; body := ErrorBody m |}.
Proof.
  intros HP HU. unfold response_of, serve, handler.
  rewrite (POST_eqb HP). cbn [negb]. unfold upload_passes in HU. run.
  destruct (upload_fault env) as [e |] eqn:F; run.
  - destruct (value_eqb (code e) (Some (js "LIMIT_FILE_SIZE"))); run;
      [ eauto | ].
    destruct (jsstring_eqb (message e) filter_message); run; eauto.
  - destruct (resume req) as [file |] eqn:R; run; [ | tauto ].
    destruct (fileFilter file) as [e |] eqn:Flt; run.
    + destruct (value_eqb (code e) (Some (js "LIMIT_FILE_SIZE"))); run;
        [ eauto | ].
      destruct (jsstring_eqb (message e) filter_message); run; eauto.
    + destruct (fileSize_limit <? size file)%N eqn:Sz; run.
      * assert (C : value_eqb (code LIMIT_FILE_SIZE)
                                (Some (js "LIMIT_FILE_SIZE")) = true)
          by reflexivity.
        rewrite C. run. eauto.
      * exfalso. apply HU. repeat split. now apply N.ltb_ge.
Qed.

Lemma upload_passes_dec (env : Env) (req : Request) :
  upload_passes env req \/ ~ upload_passes env req.
Proof.
  unfold upload_passes.
  destruct (upload_fault env); [ right; intros [[=] _] | ].
  destruct (resume req) as [file |]; [ | now left ].
  destruct (fileFilter file); [ right; intros (_ & [=] & _) | ].
  destruct (N.le_gt_cases (size file) fileSize_limit) as [H | H].
  - left. auto.
  - right. intros (_ & _ & H'). lia.
Qed.

(** Helper: a response with status 200 only comes out of the last step of
    the protocol, with every earlier step passed. *)
Lemma accepted_inv (env : Env) (req : Request) (s : Store) (b : Json) :
  response_of env req s = Some {| status := 200; body := b |} ->
  is_POST req /\ upload_passes env req /\
  first_violation (field_checks req (uploaded env req)) = None /\
  no_db_fault env /\ no_duplicate req (table s) /\
  exists file name em ph,
    resume req = Some file /\
    fullName req = Some name /\ email req = Some em /\ phone req = Some ph /\
    serve env req s
    = (Ok tt, accepted_world env req s
                (created_row req (stored_file env file) (table s) name em ph)).
Proof.
  intros H.
  assert (HP : is_POST req).
  { destruct (value_eqb (method req) (Some (js "POST"))) eqn:E.
    - now apply value_eqb_eq.
    - unfold response_of, serve, handler in H. rewrite E in H.
      cbn [negb] in H. run_in H. discriminate. }
  destruct (upload_passes_dec env req) as [HU | HU].
  2: { destruct (serve_upload_fails s HP HU) as (st & m & [-> | ->] & R);
       rewrite R in H; discriminate. }
  destruct (first_violation (field_checks req (uploaded env req)))
    as [m |] eqn:HV.
  { unfold response_of in H. rewrite (serve_violation s HP HU HV) in H.
    discriminate. }
  destruct (serve_valid s HP HU HV) as (stored & Hup & Hserve).
  unfold response_of in H. rewrite Hserve in H.
  destruct (@persist_cases env req s stored Hup)
    as [(Hf & Hd & name & em & ph & E1 & E2 & E3 & Hout) | [R | [R | R]]];
    try (rewrite R in H; discriminate).
  repeat (split; [ assumption || reflexivity | ]).
  unfold uploaded in Hup.
  destruct (resume req) as [file |] eqn:Hres; simpl in Hup;
    [ | discriminate Hup ].
  injection Hup as <-.
  exists file, name, em, ph. rewrite Hserve. auto.
Qed.

(** ** The linkedin field of an accepted submission *)

Lemma dropWhile_nil_Forall (p : code_unit -> bool) (s : jsstring) :
  dropWhile p s = [] -> Forall (fun c => p c = true) s.
Proof.
  induction s as [| c s IH]; simpl; intros H.
  - constructor.
  - destruct (p c) eqn:E; [ constructor; auto | discriminate ].
Qed.

Lemma dropWhile_Forall (p : code_unit -> bool) (s : jsstring) :
  Forall (fun c => p c = true) (dropWhile p s) ->
  Forall (fun c => p c = true) s.
Proof.
  induction s as [| c s IH]; simpl; intros H; auto.
  destruct (p c) eqn:E; [ constructor; auto | exact H ].
Qed.

Lemma trim_nil_all_space (s : jsstring) :
  trim s = [] -> Forall (fun c => isWhiteSpace c = true) s.
Proof.
  unfold trim, trimEnd, trimStart. intros H.
  apply (f_equal (@rev code_unit)) in H. rewrite rev_involutive in H.
  simpl in H. apply dropWhile_nil_Forall in H.
  apply Forall_rev in H. rewrite rev_involutive in H.
  now apply dropWhile_Forall.
Qed.

Lemma startsWith_head (s sub : jsstring) (x : code_unit) :
  startsWith s (x :: sub) = true -> exists t, s = x :: t.
Proof.
  destruct s as [| c t]; simpl; [ discriminate | ].
  intros H. apply andb_true_iff in H as [H _].
  apply N.eqb_eq in H. subst. eauto.
Qed.

Lemma includes_head_In (s sub : jsstring) (x : code_unit) :
  includes s (x :: sub) = true -> In x s.
Proof.
  induction s as [| c t IH]; intros H.
  - simpl in H. discriminate.
  - change (includes (c :: t) (x :: sub))
      with (startsWith (c :: t) (x :: sub) || includes t (x :: sub)) in H.
    apply orb_true_iff in H as [H | H].
    + apply startsWith_head in H as (t' & [= -> _]). now left.
    + right. auto.
Qed.

Lemma lower_l_no_space (c : code_unit) :
  lowerBasicLatin c = cu "l" -> isWhiteSpace c = false.
Proof.
  unfold lowerBasicLatin, cu. simpl N_of_ascii.
  destruct ((65 <=? c) && (c <=? 90))%N eqn:E; intros H.
  - assert (c = 76%N) by lia. subst. reflexivity.
  - subst. reflexivity.
Qed.

Lemma toLowerCase_space (s : jsstring) :
  Forall (fun c => isWhiteSpace c = true) s ->
  toLowerCase s = map lowerBasicLatin s.
Proof.
  intros F. unfold toLowerCase.
  replace (forallb (fun c => isBasicLatin c || isWhiteSpace c) s) with true;
    auto.
  symmetry. apply forallb_forall. intros c Hc.
  rewrite Forall_forall in F. rewrite (F c Hc). apply orb_true_r.
Qed.

Lemma linkedin_trim_nonempty (s : jsstring) :
  includes (toLowerCase s) (js "linkedin.com/in/") = true -> trim s <> [].
Proof.
  intros H Ht. apply trim_nil_all_space in Ht.
  rewrite (toLowerCase_space Ht) in H.
  change (js "linkedin.com/in/") with (cu "l" :: js "inkedin.com/in/") in H.
  apply includes_head_In in H. apply in_map_iff in H as (c & Hl & Hin).
  rewrite Forall_forall in Ht. specialize (Ht c Hin).
  apply lower_l_no_space in Hl. congruence.
Qed.

(** What the handler hands to [create] is the record of the specification
    once the linkedin check has passed. *)
Lemma created_row_expected (req : Request) (file : StoredFile)
    (t : Prisma.Table) (name em ph : jsstring) :
  check_linkedin req = None ->
  created_row req file t name em ph
  = expected_record (Prisma.next_id t) name em ph (linkedin req) file.
Proof.
  unfold check_linkedin, created_row, expected_record. intros H.
  f_equal.
  destruct (linkedin req) as [[| c l] |]; simpl; auto.
  simpl in H. unfold validateLinkedIn in H. simpl in H.
  destruct (includes (toLowerCase (c :: l)) (js "linkedin.com/in/")) eqn:E;
    [ | discriminate ].
  apply linkedin_trim_nonempty in E.
  destruct (trim (c :: l)); [ congruence | reflexivity ].
Qed.

Lemma first_violation_None (req : Request) (stored : option StoredFile) :
  first_violation (field_checks req stored) = None ->
  check_full_name req = None /\ check_email req = None /\
  check_phone req = None /\ check_linkedin req = None /\
  check_file stored = None.
Proof.
  unfold field_checks, text_checks. simpl.
  destruct (check_full_name req); [ discriminate | ].
  destruct (check_email req); [ discriminate | ].
  destruct (check_phone req); [ discriminate | ].
  destruct (check_linkedin req); [ discriminate | ].
  destruct (check_file stored); [ discriminate | ]. auto.
Qed.

(** ** The paths through the duplicate checks and the creation *)

Lemma persist_accepts (env : Env) (req : Request) (s : Store)
    (file : StoredFile) (name em ph : jsstring) :
  uploaded env req = Some file ->
  no_db_fault env -> no_duplicate req (table s) ->
  fullName req = Some name -> email req = Some em -> phone req = Some ph ->
  try_catch (handler_persist env req file) (handler_catch env)
    (after_upload env req s)
  = (Ok tt, accepted_world env req s
              (created_row req file (table s) name em ph)).
Proof.
  intros Hup (F1 & F2 & F3) (D1 & D2) E1 E2 E3.
  unfold handler_persist, accepted_world, created_row. run.
  rewrite F1. run. rewrite D1. run. rewrite F2. run. rewrite D2. run.
  rewrite E1, E2, E3. run. rewrite F3. run. rewrite Hup. reflexivity.
Qed.

(** The state a run ends in when a duplicate is found and the file is
    deleted. *)
Lemma persist_duplicate_email (env : Env) (req : Request) (s : Store)
    (file : StoredFile) (a : Prisma.Applicant) :
  uploaded env req = Some file ->
  findFirst_email_fault env = None ->
  Prisma.findFirst Prisma.email (email req) (table s) = Some a ->
  let out := try_catch (handler_persist env req file) (handler_catch env)
               (after_upload env req s) in
  match unlink_fault env with
  | None =>
      res (snd out)
      = error_response 400 "An application with this email already exists" /\
      table (store (snd out)) = table s /\
      has_file (path file) (files (store (snd out))) = false
  | Some _ =>
      res (snd out) = error_response 500 "Internal server error" /\
      table (store (snd out)) = table s
  end.
Proof.
  intros Hup F1 D1 out. subst out.
  pose proof (has_file_uploaded env req (files s) Hup) as Hhas.
  unfold handler_persist. run. rewrite F1. run. rewrite D1. run.
  rewrite Hup.
  destruct (unlink_fault env) as [e |]; run.
  - destruct (cleanup_unlink_fault env); run; auto.
    destruct (has_file (path file) (files_with_upload env req (files s)));
      run; auto.
  - rewrite Hhas. run. repeat split. apply has_file_remove.
Qed.

Lemma persist_duplicate_phone (env : Env) (req : Request) (s : Store)
    (file : StoredFile) (a : Prisma.Applicant) :
  uploaded env req = Some file ->
  findFirst_email_fault env = None -> findFirst_phone_fault env = None ->
  unlink_fault env = None ->
  Prisma.findFirst Prisma.email (email req) (table s) = None ->
  Prisma.findFirst Prisma.phone (phone req) (table s) = Some a ->
  let out := try_catch (handler_persist env req file) (handler_catch env)
               (after_upload env req s) in
  res (snd out)
  = error_response 400 "An application with this phone number already exists" /\
  table (store (snd out)) = table s /\
  has_file (path file) (files (store (snd out))) = false.
Proof.
  intros Hup F1 F2 U D1 D2 out. subst out.
  pose proof (has_file_uploaded env req (files s) Hup) as Hhas.
  unfold handler_persist. run. rewrite F1. run. rewrite D1. run.
  rewrite F2. run. rewrite D2. run. rewrite U. run. rewrite Hhas. run.
  repeat split. apply has_file_remove.
Qed.

Lemma find_none_all (A : Type) (f : A -> bool) (l : list A) :
  (forall x, In x l -> f x = false) -> find f l = None.
Proof.
  induction l as [| x l IH]; simpl; intros H; auto.
  rewrite (H x) by auto. apply IH. auto.
Qed.

Lemma first_violation_text (req : Request) (stored : option StoredFile)
    (m : string) :
  first_violation (text_checks req) = Some m ->
  first_violation (field_checks req stored) = Some m.
Proof.
  unfold field_checks, text_checks. simpl.
  destruct (check_full_name req); auto.
  destruct (check_email req); auto.
  destruct (check_phone req); auto.
  destruct (check_linkedin req); auto. discriminate.
Qed.

Lemma unsafe_char_safe (c : code_unit) :
  unsafe_char c = false <-> safe_char c.
Proof.
  unfold unsafe_char, in_range, safe_char.
  rewrite negb_false_iff, !orb_true_iff, !andb_true_iff, !N.leb_le, !N.eqb_eq.
  tauto.
Qed.

Lemma sanitize_pointwise (s : jsstring) :
  Forall2 sanitized_char s (replace_class unsafe_char (js "_") s).
Proof.
  unfold replace_class, sanitized_char.
  induction s as [| c s IH]; simpl; [ constructor | ].
  destruct (unsafe_char c) eqn:E; simpl; constructor; auto.
  - right. split; auto. rewrite <- unsafe_char_safe. congruence.
  - left. split; auto. now apply unsafe_char_safe.
Qed.

(** After an upload that went through, the response is that of the first
    failing check, or comes from the duplicate checks and the creation. *)
Lemma response_cases (env : Env) (req : Request) (s : Store) :
  is_POST req -> upload_passes env req ->
  match first_violation (field_checks req (uploaded env req)) with
  | Some m => response_of env req s = error_response 400 m
  | None =>
      (exists b, response_of env req s = Some {| status := 200; body := b |})
      \/ response_of env req s
         = error_response 400 "An application with this email already exists"
      \/ response_of env req s
         = error_response 400
             "An application with this phone number already exists"
      \/ response_of env req s = error_response 500 "Internal server error"
  end.
Proof.
  intros HP HU.
  destruct (first_violation (field_checks req (uploaded env req)))
    as [m |] eqn:HV.
  - unfold response_of. now rewrite (serve_violation s HP HU HV).
  - destruct (serve_valid s HP HU HV) as (file & Hup & Hserve).
    unfold response_of. rewrite Hserve.
    destruct (@persist_cases env req s file Hup)
      as [(_ & _ & name & em & ph & _ & _ & _ & Hout) | H]; auto.
    left. rewrite Hout. unfold accepted_world. simpl. eauto.
Qed.

(** The duplicate-phone check: the submitted phone found in the table, the
    email not. *)
Lemma duplicate_phone_rejected (env : Env) (req : Request) (s : Store)
    (a : Prisma.Applicant) :
  is_POST req -> upload_passes env req ->
  first_violation (field_checks req (uploaded env req)) = None ->
  findFirst_email_fault env = None -> findFirst_phone_fault env = None ->
  unlink_fault env = None ->
  Prisma.findFirst Prisma.email (email req) (table s) = None ->
  Prisma.findFirst Prisma.phone (phone req) (table s) = Some a ->
  response_of env req s
  = error_response 400 "An application with this phone number already exists" /\
  table (store_after env req s) = table s.
Proof.
  intros HP HU HV F1 F2 U D1 D2.
  destruct (serve_valid s HP HU HV) as (file & Hup & Hserve).
  unfold response_of, store_after. rewrite Hserve.
  pose proof (@persist_duplicate_phone env req s file a Hup F1 F2 U D1 D2) as R.
  simpl in R. tauto.
Qed.

(** A fault of [create]: the [catch] block deletes the file; when that
    deletion fails too, the failure is logged, the file stays, and the
    response is the same. *)
Lemma creation_fault_cleanup (env : Env) (req : Request) (s : Store)
    (file : StoredFile) (name em ph : jsstring) (e : JsError) :
  uploaded env req = Some file ->
  findFirst_email_fault env = None -> findFirst_phone_fault env = None ->
  no_duplicate req (table s) ->
  fullName req = Some name -> email req = Some em -> phone req = Some ph ->
  create_fault env = Some e ->
  let out := snd (try_catch (handler_persist env req file) (handler_catch env)
                    (after_upload env req s)) in
  res out = error_response 500 "Internal server error" /\
  table (store out) = table s /\
  match cleanup_unlink_fault env with
  | None =>
      has_file (path file) (files (store out)) = false /\
      console (store out) = console s ++ [LogApiError e]
  | Some e' =>
      has_file (path file) (files (store out)) = true /\
      console (store out) = console s ++ [LogApiError e] ++ [LogCleanupError e']
  end.
Proof.
  intros Hup F1 F2 (D1 & D2) E1 E2 E3 F3 out. subst out.
  pose proof (has_file_uploaded env req (files s) Hup) as Hhas.
  unfold handler_persist. run.
  rewrite F1. run. rewrite D1. run. rewrite F2. run. rewrite D2. run.
  rewrite E1, E2, E3. run. rewrite F3. run. rewrite Hup.
  destruct (cleanup_unlink_fault env) as [e' |]; run.
  - rewrite <- app_assoc. auto.
  - rewrite Hhas. run. repeat split. apply has_file_remove.
Qed.

(** ** Trimming and lower-casing do what their names say *)

Lemma isWhiteSpace_white_space (c : code_unit) :
  isWhiteSpace c = true <-> white_space c.
Proof.
  unfold isWhiteSpace, white_space.
  rewrite !orb_true_iff, !andb_true_iff, !N.leb_le, !N.eqb_eq.
  cbn [In]. lia.
Qed.

Lemma dropWhile_split (p : code_unit -> bool) (s : jsstring) :
  exists pre, s = pre ++ dropWhile p s /\ Forall (fun c => p c = true) pre.
Proof.
  induction s as [| c s (pre & E & F)]; simpl.
  - exists []. split; [ reflexivity | constructor ].
  - destruct (p c) eqn:Hc.
    + exists (c :: pre). split; [ simpl; congruence | constructor; auto ].
    + exists []. split; [ reflexivity | constructor ].
Qed.

Lemma dropWhile_first (p : code_unit -> bool) (s : jsstring)
    (c : code_unit) (r : jsstring) :
  dropWhile p s = c :: r -> p c = false.
Proof.
  induction s as [| d s IH]; simpl; [ discriminate | ].
  destruct (p d) eqn:Hd; auto.
  intros [= -> _]. exact Hd.
Qed.

Lemma Forall_white_space (l : jsstring) :
  Forall (fun c => isWhiteSpace c = true) l -> Forall white_space l.
Proof.
  intros F. eapply Forall_impl; [ | exact F ].
  intros c. apply isWhiteSpace_white_space.
Qed.

Lemma not_white_space (c : code_unit) :
  isWhiteSpace c = false -> ~ white_space c.
Proof.
  intros H W. apply isWhiteSpace_white_space in W. congruence.
Qed.

(** [trim] takes the surrounding white space off, and nothing else. *)
Lemma trim_trimmed_of (s : jsstring) : trimmed_of s (trim s).
Proof.
  unfold trim, trimEnd, trimStart.
  destruct (dropWhile_split isWhiteSpace s) as (pre & Es & Fpre).
  set (u := dropWhile isWhiteSpace s) in *.
  destruct (dropWhile_split isWhiteSpace (rev u)) as (q & Eu & Fq).
  set (v := dropWhile isWhiteSpace (rev u)) in *.
  assert (Eu' : u = rev v ++ rev q).
  { rewrite <- (rev_involutive u), Eu. apply rev_app_distr. }
  exists pre, (rev q). split; [ | split; [ | split; [ | split ] ] ].
  - rewrite Es at 1. now rewrite Eu'.
  - now apply Forall_white_space.
  - apply Forall_white_space. now apply Forall_rev.
  - intros c r Ht. apply not_white_space.
    apply (@dropWhile_first isWhiteSpace s c (r ++ rev q)).
    fold u. rewrite Eu', Ht. reflexivity.
  - intros r c Ht. apply not_white_space.
    apply (@dropWhile_first isWhiteSpace (rev u) c (rev r)).
    fold v. rewrite <- (rev_involutive v), Ht, rev_app_distr. reflexivity.
Qed.

Lemma lowerBasicLatin_lower_of (c : code_unit) :
  lower_of c (lowerBasicLatin c).
Proof.
  unfold lower_of, lowerBasicLatin.
  destruct ((65 <=? c) && (c <=? 90))%N eqn:E.
  - left. apply andb_true_iff in E as [E1 E2].
    apply N.leb_le in E1, E2. auto.
  - right. split; auto. intros [H1 H2].
    apply N.leb_le in H1, H2. rewrite H1, H2 in E. discriminate.
Qed.

Lemma basic_or_space_Forall (t : jsstring) :
  forallb (fun c => isBasicLatin c || isWhiteSpace c) t = true <->
  Forall (fun c => (c < 128)%N \/ white_space c) t.
Proof.
  rewrite forallb_forall, Forall_forall.
  split; intros H c Hc; specialize (H c Hc).
  - apply orb_true_iff in H as [H | H].
    + left. now apply N.ltb_lt.
    + right. now apply isWhiteSpace_white_space.
  - apply orb_true_iff. destruct H as [H | H].
    + left. now apply N.ltb_lt.
    + right. now apply isWhiteSpace_white_space.
Qed.

(** [toLowerCase] lower-cases. *)
Lemma toLowerCase_lower_cased_of (t : jsstring) :
  lower_cased_of t (toLowerCase t).
Proof.
  unfold lower_cased_of, toLowerCase. split; intros H.
  - apply basic_or_space_Forall in H. rewrite H.
    clear H. induction t; simpl; constructor; auto.
    apply lowerBasicLatin_lower_of.
  - destruct (forallb (fun c => isBasicLatin c || isWhiteSpace c) t) eqn:E;
      [ | reflexivity ].
    apply basic_or_space_Forall in E. contradiction.
Qed.

Lemma space_prefix_unique (pre pre' x x' : jsstring) (c c' : code_unit) :
  Forall white_space pre -> Forall white_space pre' ->
  ~ white_space c -> ~ white_space c' ->
  pre ++ c :: x = pre' ++ c' :: x' ->
  pre = pre' /\ c :: x = c' :: x'.
Proof.
  intros F. revert pre'.
  induction F as [| d pre Hd _ IH]; intros pre' F' Hc Hc' E.
  - destruct F' as [| d' pre' Hd' _]; simpl in E; [ auto | ].
    injection E as -> _. contradiction.
  - destruct F' as [| d' pre' Hd' F']; simpl in E.
    + injection E as -> _. contradiction.
    + injection E as -> E.
      destruct (IH pre' F' Hc Hc' E) as (-> & E'). auto.
Qed.

(** The specification of trimming leaves one result only. *)
Lemma trimmed_of_unique (s t t' : jsstring) :
  trimmed_of s t -> trimmed_of s t' -> t = t'.
Proof.
  assert (Empty : forall u v,
             trimmed_of u [] -> trimmed_of u v -> v = []).
  { intros u v (pre & post & -> & Fp & Fq & _) (pre' & post' & E & _ & _ & N).
    destruct v as [| c r]; [ reflexivity | exfalso ].
    apply (proj1 N c r eq_refl).
    assert (A : Forall white_space (pre ++ [] ++ post))
      by (repeat (apply Forall_app; split); auto).
    rewrite E in A. apply Forall_app in A as (_ & A).
    apply Forall_app in A as (A & _). now inversion A. }
  intros H H'.
  destruct t as [| c r]; [ symmetry; eauto | ].
  destruct t' as [| c' r']; [ eauto | ].
  destruct H as (pre & post & -> & Fp & Fq & N1 & N2).
  destruct H' as (pre' & post' & E & Fp' & Fq' & N1' & N2').
  simpl in E.
  destruct (@space_prefix_unique pre pre' (r ++ post) (r' ++ post') c c'
              Fp Fp' (N1 c r eq_refl) (N1' c' r' eq_refl) E) as (_ & E1).
  apply (f_equal (@rev code_unit)) in E1.
  change (c :: r ++ post) with ((c :: r) ++ post) in E1.
  change (c' :: r' ++ post') with ((c' :: r') ++ post') in E1.
  rewrite !rev_app_distr in E1.
  destruct (rev (c :: r)) as [| l x] eqn:R;
    [ apply (f_equal (@List.length code_unit)) in R;
      rewrite length_rev in R; discriminate | ].
  destruct (rev (c' :: r')) as [| l' x'] eqn:R';
    [ apply (f_equal (@List.length code_unit)) in R';
      rewrite length_rev in R'; discriminate | ].
  assert (T : c :: r = rev x ++ [l]).
  { rewrite <- (rev_involutive (c :: r)), R. reflexivity. }
  assert (T' : c' :: r' = rev x' ++ [l']).
  { rewrite <- (rev_involutive (c' :: r')), R'. reflexivity. }
  destruct (@space_prefix_unique (rev post) (rev post') x x' l l'
              (Forall_rev Fq) (Forall_rev Fq')
              (N2 (rev x) l T) (N2' (rev x') l' T') E1) as (_ & E2).
  rewrite T, T'. injection E2 as -> ->. reflexivity.
Qed.

(** ** The properties of the handler *)

(** C9: a request whose method is not POST is answered at once with
    405 Method Not Allowed, and nothing else happens: the handler returns
    normally, no file is written and no applicant record is created (the
    store is left as it was). *)
Theorem C9_method_not_allowed (env : Env) (req : Request) (s : Store) :
  method req <> Some (js "POST") ->
  serve env req s
  = (Ok tt, {| store := s;
               res := error_response 405 "Method Not Allowed";
               req_file := None |}).
Proof.
  intros H. unfold serve, handler.
  destruct (value_eqb (method req) (Some (js "POST"))) eqn:E.
  - apply value_eqb_eq in E. contradiction.
  - reflexivity.
Qed.

(** C8: the name of the stored file is the decimal millisecond timestamp,
    a hyphen and the sanitized original name; sanitization works character
    by character, keeping every character of [[A-Za-z0-9.-]] and putting an
    underscore for every other one, so the sanitized name has the length of
    the original and only holds characters of that class or underscores.
    An upload that goes through records exactly that name in [req.file]. *)
Theorem C8_stored_file_name (env : Env) (file : FilePart) :
  storage_filename env file
  = NumberToString (Date_now env) ++ js "-" ++ sanitizedName file /\
  Forall2 sanitized_char (originalname file) (sanitizedName file) /\
  List.length (sanitizedName file) = List.length (originalname file) /\
  Forall (fun d => safe_char d \/ d = cu "_") (sanitizedName file) /\
  (forall (req : Request) (s : Store),
      upload_passes env req -> resume req = Some file ->
      exists stored,
        req_file (snd (upload_step env req
                         {| store := s; res := None; req_file := None |}))
        = Some stored /\
        filename stored = storage_filename env file).
Proof.
  pose proof (sanitize_pointwise (originalname file)) as P.
  fold (sanitizedName file) in P.
  repeat split; auto.
  - symmetry. eapply Forall2_length; eauto.
  - clear - P. induction P as [| c d s t Hcd _ IH]; constructor; auto.
    destruct Hcd as [[Hs ->] | [_ ->]]; auto.
  - intros req s HU Hres. rewrite (upload_step_passes s HU).
    unfold after_upload, uploaded. rewrite Hres. simpl. eauto.
Qed.

(** C6: the phone field passes exactly when it is a string of exactly ten
    decimal digits; "1234567890" passes, and a submission that has reached
    the phone checks with "123456789", "12345678901" or "123-456-7890" is
    answered with the phone-format error. *)
Theorem C6_phone_ten_digits :
  (forall v, phone_passes v = true <-> exists p, v = Some p /\ ten_digits p) /\
  phone_passes (Some (js "1234567890")) = true /\
  (forall (env : Env) (req : Request) (s : Store) (p : jsstring),
      In p [ js "123456789"; js "12345678901"; js "123-456-7890" ] ->
      is_POST req -> upload_passes env req ->
      check_full_name req = None -> check_email req = None ->
      phone req = Some p ->
      response_of env req s
      = error_response 400 "Phone number must be exactly 10 digits").
Proof.
  split; [ exact phone_passes_digits | ].
  split; [ reflexivity | ].
  intros env req s p Hin HP HU Hname Hemail Hphone.
  unfold response_of. rewrite (@serve_violation env req s
    "Phone number must be exactly 10 digits" HP HU); [ reflexivity | ].
  unfold field_checks, text_checks. rewrite Hname, Hemail. simpl.
  unfold check_phone. rewrite Hphone.
  destruct Hin as [<- | [<- | [<- | []]]]; reflexivity.
Qed.

(** C7: the email checks pass exactly when the field is present and has
    the shape: one or more characters that are neither white space nor [@],
    an [@], one or more such characters, a dot, one or more such
    characters.  An absent or blank field and a string of another shape
    fail, and the handler then answers with an email error; when the checks
    pass it never does. *)
Theorem C7_email_shape :
  (forall v, email_passes v = true <-> exists e, v = Some e /\ email_shape e) /\
  (forall req, check_email req = None <-> email_passes (email req) = true) /\
  (forall (env : Env) (req : Request) (s : Store),
      is_POST req -> upload_passes env req -> check_full_name req = None ->
      (email_passes (email req) = false ->
       response_of env req s = error_response 400 "Email is required" \/
       response_of env req s = error_response 400 "Invalid email format") /\
      (email_passes (email req) = true ->
       response_of env req s <> error_response 400 "Email is required" /\
       response_of env req s <> error_response 400 "Invalid email format")).
Proof.
  split; [ exact email_passes_shape | ].
  assert (C : forall req,
             check_email req = None <-> email_passes (email req) = true).
  { intros req. unfold check_email, email_passes.
    destruct (truthy (optTrim (email req))); simpl;
      [ | split; discriminate ].
    destruct (validateEmail (email req)); split; auto; discriminate. }
  split; [ exact C | ].
  intros env req s HP HU Hname. split.
  - intros Hfail.
    assert (exists m, check_email req = Some m /\
                      (m = "Email is required"%string \/
                       m = "Invalid email format"%string)) as (m & Hm & Hcase).
    { unfold check_email, email_passes in *.
      destruct (truthy (optTrim (email req))); simpl in *; eauto.
      rewrite Hfail. eauto. }
    assert (R : response_of env req s = error_response 400 m).
    { unfold response_of. rewrite (@serve_violation env req s m HP HU); auto.
      unfold field_checks, text_checks. simpl. now rewrite Hname, Hm. }
    destruct Hcase as [-> | ->]; auto.
  - intros Hpass. apply C in Hpass.
    pose proof (response_cases s HP HU) as R.
    unfold field_checks, text_checks in R. simpl in R.
    rewrite Hname, Hpass in R.
    unfold check_phone, check_linkedin, check_file in R.
    destruct (truthy (optTrim (phone req))); simpl in R;
      [ | rewrite R; split; discriminate ].
    destruct (validatePhone (phone req)); simpl in R;
      [ | rewrite R; split; discriminate ].
    destruct (truthy (linkedin req) && negb (validateLinkedIn (linkedin req)));
      simpl in R; [ rewrite R; split; discriminate | ].
    destruct (uploaded env req); simpl in R;
      [ | rewrite R; split; discriminate ].
    destruct R as [(b & R) | [R | [R | R]]]; rewrite R; split; discriminate.
Qed.

(** C3: of the field checks, made in the fixed order full name, email,
    phone, linkedin, file present, only the first failing one is reported,
    as the one error of the response; in particular a submission without a
    full name gets the missing-full-name error whatever the other fields
    are. *)
Theorem C3_first_violation_wins (env : Env) (req : Request) (s : Store) :
  is_POST req -> upload_passes env req ->
  (forall m,
      first_violation (field_checks req (uploaded env req)) = Some m ->
      response_of env req s = error_response 400 m) /\
  (truthy (optTrim (fullName req)) = false ->
   response_of env req s = error_response 400 "Full name is required").
Proof.
  intros HP HU.
  assert (G : forall m,
             first_violation (field_checks req (uploaded env req)) = Some m ->
             response_of env req s = error_response 400 m).
  { intros m HV. unfold response_of. now rewrite (serve_violation s HP HU HV). }
  split; [ exact G | ].
  intros Hname. apply G.
  unfold field_checks, text_checks, check_full_name. simpl.
  now rewrite Hname.
Qed.

(** C5: an accepted submission creates one applicant record whose full
    name is the submitted one with the surrounding white space taken off,
    whose email is the submitted one trimmed in the same way and then
    lower-cased, whose phone is the submitted one trimmed, whose linkedin
    is the submitted one trimmed, or absent when the field was absent or
    empty, and whose resume path is the path of the stored file relative
    to the working directory. *)
Theorem C5_created_record (env : Env) (req : Request) (s : Store) (b : Json) :
  response_of env req s = Some {| status := 200; body := b |} ->
  exists file name em ph,
    resume req = Some file /\
    fullName req = Some name /\ email req = Some em /\ phone req = Some ph /\
    let stored := stored_file env file in
    let row := expected_record (Prisma.next_id (table s)) name em ph
                 (linkedin req) stored in
    Prisma.rows (table (store_after env req s))
    = Prisma.rows (table s) ++ [row] /\
    b = SuccessBody (js "Application submitted successfully!") (Prisma.id row) /\
    Prisma.resume_path row = Some (js "resumes/" ++ storage_filename env file) /\
    path stored
    = path_join (cwd env) (js "resumes/" ++ storage_filename env file) /\
    has_file (path stored) (files (store_after env req s)) = true /\
    trimmed_of name (Prisma.full_name row) /\
    (exists t, trimmed_of em t /\ lower_cased_of t (Prisma.email row)) /\
    trimmed_of ph (Prisma.phone row) /\
    match linkedin req with
    | None | Some [] => Prisma.linkedin row = None
    | Some l => exists t, Prisma.linkedin row = Some t /\ trimmed_of l t
    end.
Proof.
  intros H.
  destruct (@accepted_inv env req s b H)
    as (HP & HU & HV & Hf & Hd & file & name & em & ph & Hres & E1 & E2 & E3
        & Hserve).
  apply first_violation_None in HV as (_ & _ & _ & Hli & _).
  exists file, name, em, ph. repeat (split; [ assumption | ]).
  intros stored row.
  rewrite (@created_row_expected req (stored_file env file) (table s)
             name em ph Hli) in Hserve.
  fold stored in Hserve. fold row in Hserve.
  unfold response_of in H. unfold store_after.
  rewrite Hserve in H |- *.
  unfold accepted_world in H |- *. simpl in H |- *.
  split; [ reflexivity | ].
  split; [ now injection H as <- | ].
  split; [ reflexivity | ].
  split.
  { unfold path_join, uploadDir, path_join.
    change (js "resumes/") with (js "resumes" ++ js "/").
    now rewrite <- !app_assoc. }
  split.
  { apply (@has_file_uploaded env req (files s) (stored_file env file)).
    unfold uploaded. now rewrite Hres. }
  split; [ apply trim_trimmed_of | ].
  split.
  { exists (trim em). split; [ apply trim_trimmed_of | ].
    apply toLowerCase_lower_cased_of. }
  split; [ apply trim_trimmed_of | ].
  destruct (linkedin req) as [[| c l] |]; try reflexivity.
  exists (trim (c :: l)). split; [ reflexivity | apply trim_trimmed_of ].
Qed.

(** C10: a phone that passes the format check is made of decimal digits
    only and so equals its own trimmed form; hence, for an accepted
    submission, the string looked up by the duplicate-phone check (the
    submitted one) and the string stored in the created record (the trimmed
    one) are the same string. *)
Theorem C10_phone_lookup_is_stored :
  (forall v, validatePhone v = true ->
             exists p, v = Some p /\ Forall is_digit p /\ trim p = p) /\
  (forall (env : Env) (req : Request) (s : Store) (b : Json),
      response_of env req s = Some {| status := 200; body := b |} ->
      exists p row,
        phone req = Some p /\
        Prisma.findFirst Prisma.phone (Some p) (table s) = None /\
        Prisma.rows (table (store_after env req s))
        = Prisma.rows (table s) ++ [row] /\
        Prisma.phone row = p).
Proof.
  assert (G : forall v, validatePhone v = true ->
                        exists p, v = Some p /\ Forall is_digit p /\ trim p = p).
  { intros v H. apply validatePhone_digits in H as (p & -> & T).
    exists p. split; auto. split; [ apply T | ].
    apply trim_no_space. now apply ten_digits_no_space. }
  split; [ exact G | ].
  intros env req s b H.
  destruct (@accepted_inv env req s b H)
    as (HP & HU & HV & Hf & (_ & Hd) & file & name & em & ph & Hres & E1 & E2
        & E3 & Hserve).
  apply first_violation_None in HV as (_ & _ & Hph & _ & _).
  assert (V : validatePhone (phone req) = true).
  { unfold check_phone in Hph.
    destruct (truthy (optTrim (phone req))); simpl in Hph; [ | discriminate ].
    destruct (validatePhone (phone req)); [ reflexivity | discriminate ]. }
  destruct (G _ V) as (p & Hp & _ & Ht).
  rewrite E3 in Hp. injection Hp as ->.
  exists p, (created_row req (stored_file env file) (table s) name em p).
  split; [ assumption | ].
  split; [ now rewrite <- E3 | ].
  unfold store_after. rewrite Hserve. unfold accepted_world. simpl.
  split; [ reflexivity | exact Ht ].
Qed.

(** C1 (the code departs from it): when the upload has gone through and a
    field check on the text fields fails, the handler answers with that
    check's error and returns without deleting anything: the stored file is
    still in the upload directory, with no record to go with it. *)
Theorem C1_failed_check_leaves_file (env : Env) (req : Request) (s : Store)
    (file : FilePart) (m : string) :
  is_POST req -> upload_passes env req -> resume req = Some file ->
  first_violation (text_checks req) = Some m ->
  response_of env req s = error_response 400 m /\
  has_file (path (stored_file env file)) (files (store_after env req s)) = true /\
  table (store_after env req s) = table s.
Proof.
  intros HP HU Hres HV.
  apply first_violation_text with (stored := uploaded env req) in HV.
  unfold response_of, store_after. rewrite (serve_violation s HP HU HV).
  unfold responded, after_upload. simpl.
  repeat split.
  apply (@has_file_uploaded env req (files s) (stored_file env file)).
  unfold uploaded. now rewrite Hres.
Qed.

(** C2 (the code departs from it): the duplicate-email lookup compares the
    email as submitted.  With an applicant stored under [a@b.com] and no
    row spelled [A@B.com], a valid submission with the email [A@B.com] is
    accepted, and a second record with the email [a@b.com] is created. *)
Theorem C2_other_case_email_accepted (env : Env) (req : Request) (s : Store)
    (name p : jsstring) :
  is_POST req -> upload_passes env req -> no_db_fault env ->
  first_violation (field_checks req (uploaded env req)) = None ->
  fullName req = Some name ->
  email req = Some (js "A@B.com") ->
  phone req = Some p ->
  (exists a, In a (Prisma.rows (table s)) /\ Prisma.email a = js "a@b.com") ->
  (forall a, In a (Prisma.rows (table s)) -> Prisma.email a <> js "A@B.com") ->
  (forall a, In a (Prisma.rows (table s)) -> Prisma.phone a <> p) ->
  exists row b,
    response_of env req s = Some {| status := 200; body := b |} /\
    Prisma.rows (table (store_after env req s))
    = Prisma.rows (table s) ++ [row] /\
    Prisma.email row = js "a@b.com".
Proof.
  intros HP HU Hf HV E1 E2 E3 _ Hemail Hphone.
  destruct (serve_valid s HP HU HV) as (file & Hup & Hserve).
  assert (Hd : no_duplicate req (table s)).
  { unfold no_duplicate. rewrite E2, E3. simpl. split; apply find_none_all.
    - intros a Ha. apply jsstring_eqb_neq. auto.
    - intros a Ha. apply jsstring_eqb_neq. auto. }
  rewrite (persist_accepts s Hup Hf Hd E1 E2 E3) in Hserve.
  exists (created_row req file (table s) name (js "A@B.com") p).
  eexists. unfold response_of, store_after. rewrite Hserve.
  unfold accepted_world. simpl. repeat split.
Qed.

(** C4 (the code departs from it): in a duplicate branch the deletion is
    not guarded.  When the duplicate-email check finds an applicant, the
    caller gets the duplicate-email error if the deletion succeeds, but the
    internal-error response if the deletion throws; in the [catch] block the
    second deletion is guarded and its failure changes nothing. *)
Theorem C4_failed_deletion_changes_response (env : Env) (req : Request)
    (s : Store) (a : Prisma.Applicant) :
  is_POST req -> upload_passes env req ->
  first_violation (field_checks req (uploaded env req)) = None ->
  findFirst_email_fault env = None ->
  Prisma.findFirst Prisma.email (email req) (table s) = Some a ->
  response_of env req s
  = match unlink_fault env with
    | None =>
        error_response 400 "An application with this email already exists"
    | Some _ => error_response 500 "Internal server error"
    end.
Proof.
  intros HP HU HV F1 D1.
  destruct (serve_valid s HP HU HV) as (file & Hup & Hserve).
  unfold response_of. rewrite Hserve.
  pose proof (@persist_duplicate_email env req s file a Hup F1 D1) as R.
  simpl in R. destruct (unlink_fault env); tauto.
Qed.

(** ** Every way a run can end *)

Lemma serve_not_POST (env : Env) (req : Request) (s : Store) :
  ~ is_POST req ->
  serve env req s
  = (Ok tt, {| store := s;
               res := error_response 405 "Method Not Allowed";
               req_file := None |}).
Proof.
  intros H. unfold serve, handler.
  destruct (value_eqb (method req) (Some (js "POST"))) eqn:E.
  - apply value_eqb_eq in E. contradiction.
  - reflexivity.
Qed.

Lemma is_POST_dec (req : Request) : is_POST req \/ ~ is_POST req.
Proof.
  unfold is_POST.
  destruct (value_eqb (method req) (Some (js "POST"))) eqn:E.
  - left. now apply value_eqb_eq.
  - right. intros H. apply value_eqb_eq in H. congruence.
Qed.

Lemma upload_error_None (env : Env) (req : Request) :
  upload_error env req = None <-> upload_passes env req.
Proof.
  unfold upload_error, upload_passes.
  destruct (upload_fault env); [ split; [ discriminate | intros [[=] _] ] | ].
  destruct (resume req) as [file |]; [ | tauto ].
  destruct (fileFilter file);
    [ split; [ discriminate | intros (_ & [=] & _) ] | ].
  destruct (fileSize_limit <? size file)%N eqn:E.
  - apply N.ltb_lt in E. split; [ discriminate | intros (_ & _ & H); lia ].
  - apply N.ltb_ge in E. tauto.
Qed.

Lemma upload_single_error (env : Env) (req : Request) (s : Store)
    (r : option Response) (f : option StoredFile) (e : JsError) :
  upload_error env req = Some e ->
  upload_single env req {| store := s; res := r; req_file := f |}
  = (Throw e,
     {| store := {| table := table s;
                    files := files_after_refusal env req (files s);
                    console := console s |};
        res := r; req_file := f |}).
Proof.
  unfold upload_error, files_after_refusal. run.
  destruct (upload_fault env); run; [ destruct s; now intros [= ->] | ].
  destruct (resume req) as [file |]; run; [ | discriminate ].
  destruct (fileFilter file); run; [ destruct s; now intros [= ->] | ].
  destruct (fileSize_limit <? size file)%N; run;
    [ now intros [= <-] | discriminate ].
Qed.

(** A failed upload: the error response is sent, the [catch] block logs
    the error and fails to send a second response. *)
Lemma serve_upload_error (env : Env) (req : Request) (s : Store)
    (e : JsError) :
  is_POST req -> upload_error env req = Some e ->
  serve env req s
  = (Throw ERR_HTTP_HEADERS_SENT,
     {| store := {| table := table s;
                    files := files_after_refusal env req (files s);
                    console := (console s ++ [LogUploadError e])
                               ++ [LogApiError e] |};
        res := Some (upload_error_response e);
        req_file := None |}).
Proof.
  intros HP HE. unfold serve, handler. rewrite (POST_eqb HP). cbn [negb].
  unfold handler_try, upload_step, upload_error_response.
  cbv beta iota delta [try_catch bind].
  rewrite (@upload_single_error env req s None None e HE). run.
  destruct (value_eqb (code e) (Some (js "LIMIT_FILE_SIZE"))); run;
    [ reflexivity | ].
  destruct (jsstring_eqb (message e) filter_message); run; reflexivity.
Qed.

(** In the [catch] block the file is still there, so the deletion only
    fails when the surroundings make it. *)
Ltac caught_full :=
  right; right; eexists;
  match goal with
  | H : has_file _ _ = true |- _ =>
      destruct (cleanup_unlink_fault _); run; [ | rewrite H; run ]; reflexivity
  end.

Lemma persist_outcome (env : Env) (req : Request) (s : Store)
    (file : StoredFile) :
  uploaded env req = Some file ->
  let out := try_catch (handler_persist env req file) (handler_catch env)
               (after_upload env req s) in
  (no_db_fault env /\ no_duplicate req (table s) /\
   exists name em ph,
     fullName req = Some name /\ email req = Some em /\ phone req = Some ph /\
     out = (Ok tt, accepted_world env req s
                     (created_row req file (table s) name em ph)))
  \/ (unlink_fault env = None /\
      exists m,
        (m = "An application with this email already exists"%string \/
         m = "An application with this phone number already exists"%string) /\
        out = (Ok tt, duplicate_world env req s file m))
  \/ (exists e, out = (Ok tt, caught_world env req s file e)).
Proof.
  intros Hfile out. subst out.
  pose proof (has_file_uploaded env req (files s) Hfile) as Hhas.
  unfold no_db_fault, no_duplicate, accepted_world, created_row,
    duplicate_world, caught_world.
  unfold handler_persist. run. rewrite Hfile.
  destruct (findFirst_email_fault env) eqn:F1; run; [ caught_full | ].
  destruct (Prisma.findFirst Prisma.email (email req) (table s)) eqn:D1; run.
  { destruct (unlink_fault env) eqn:U; run; [ caught_full | ].
    rewrite Hhas. run. right; left. split; auto.
    eexists. split; [ | reflexivity ]. auto. }
  destruct (findFirst_phone_fault env) eqn:F2; run; [ caught_full | ].
  destruct (Prisma.findFirst Prisma.phone (phone req) (table s)) eqn:D2; run.
  { destruct (unlink_fault env) eqn:U; run; [ caught_full | ].
    rewrite Hhas. run. right; left. split; auto.
    eexists. split; [ | reflexivity ]. auto. }
  destruct (fullName req) as [name |] eqn:E1; run; [ | caught_full ].
  destruct (email req) as [em |] eqn:E2; run; [ | caught_full ].
  destruct (phone req) as [ph |] eqn:E3; run; [ | caught_full ].
  destruct (create_fault env) eqn:F3; run; [ caught_full | ].
  left. repeat split; auto.
  exists name, em, ph. repeat split; auto.
Qed.

(** Helper: the five ways a run of the handler can end. *)
Lemma serve_outcome (env : Env) (req : Request) (s : Store) :
  (~ is_POST req /\
   serve env req s
   = (Ok tt, {| store := s;
                res := error_response 405 "Method Not Allowed";
                req_file := None |}))
  \/ (is_POST req /\
      exists e,
        upload_error env req = Some e /\
        serve env req s
        = (Throw ERR_HTTP_HEADERS_SENT,
           {| store := {| table := table s;
                          files := files_after_refusal env req (files s);
                          console := (console s ++ [LogUploadError e])
                                     ++ [LogApiError e] |};
              res := Some (upload_error_response e);
              req_file := None |}))
  \/ (is_POST req /\ upload_passes env req /\
      exists m,
        first_violation (field_checks req (uploaded env req)) = Some m /\
        serve env req s
        = (Ok tt, responded (after_upload env req s) (error_response 400 m)))
  \/ (is_POST req /\ upload_passes env req /\
      first_violation (field_checks req (uploaded env req)) = None /\
      exists file,
        uploaded env req = Some file /\
        ((no_db_fault env /\ no_duplicate req (table s) /\
          exists name em ph,
            fullName req = Some name /\ email req = Some em /\
            phone req = Some ph /\
            serve env req s
            = (Ok tt, accepted_world env req s
                        (created_row req file (table s) name em ph)))
         \/ (unlink_fault env = None /\
             exists m,
               (m = "An application with this email already exists"%string \/
                m = "An application with this phone number already exists"%string)
               /\ serve env req s = (Ok tt, duplicate_world env req s file m))
         \/ (exists e,
               serve env req s = (Ok tt, caught_world env req s file e)))).
Proof.
  destruct (is_POST_dec req) as [HP | HP];
    [ | left; split; auto using serve_not_POST ].
  right.
  destruct (upload_error env req) as [e |] eqn:HE.
  { left. split; auto. exists e. split; auto. now apply serve_upload_error. }
  right. apply upload_error_None in HE.
  destruct (first_violation (field_checks req (uploaded env req)))
    as [m |] eqn:HV.
  { left. do 2 (split; [ assumption | ]). exists m. split; auto.
    now apply serve_violation. }
  right. do 2 (split; [ assumption | ]). split; [ reflexivity | ].
  destruct (serve_valid s HP HE HV) as (file & Hup & Hserve).
  exists file. split; auto. rewrite Hserve.
  exact (@persist_outcome env req s file Hup).
Qed.

Lemma upload_error_response_status (e : JsError) :
  status (upload_error_response e) = 400%Z \/
  status (upload_error_response e) = 500%Z.
Proof.
  unfold upload_error_response.
  destruct (value_eqb (code e) (Some (js "LIMIT_FILE_SIZE"))); auto.
  destruct (jsstring_eqb (message e) filter_message); auto.
Qed.

Lemma caught_world_table (env : Env) (req : Request) (s : Store)
    (file : StoredFile) (e : JsError) :
  table (store (caught_world env req s file e)) = table s.
Proof. unfold caught_world. simpl. now destruct (cleanup_unlink_fault env). Qed.

(** Helper: a run that does not answer 200 leaves the table as it was. *)
Lemma rejected_keeps_table (env : Env) (req : Request) (s : Store) :
  (forall b, response_of env req s <> Some {| status := 200; body := b |}) ->
  table (store_after env req s) = table s.
Proof.
  intros H. unfold response_of, store_after in *.
  destruct (serve_outcome env req s)
    as [(_ & E) | [(_ & e & _ & E) | [(_ & _ & m & _ & E)
       | (_ & _ & _ & file & _ &
          [(_ & _ & name & em & ph & _ & _ & _ & E)
          | [(_ & m & _ & E) | (e & E)]])]]];
    rewrite E in *;
    unfold responded, after_upload, duplicate_world, accepted_world in *;
    simpl in *; auto;
    try (destruct (cleanup_unlink_fault env); reflexivity).
  exfalso. eapply H. reflexivity.
Qed.

(** Helper: what an accepted submission adds to the table. *)
Lemma accepted_row (env : Env) (req : Request) (s : Store) (b : Json) :
  response_of env req s = Some {| status := 200; body := b |} ->
  exists file name em ph,
    resume req = Some file /\
    fullName req = Some name /\ email req = Some em /\ phone req = Some ph /\
    check_full_name req = None /\ check_email req = None /\
    check_phone req = None /\ check_linkedin req = None /\
    no_duplicate req (table s) /\
    table (store_after env req s)
    = {| Prisma.rows :=
           Prisma.rows (table s)
           ++ [created_row req (stored_file env file) (table s) name em ph];
         Prisma.next_id := (Prisma.next_id (table s) + 1)%Z |}.
Proof.
  intros H.
  destruct (@accepted_inv env req s b H)
    as (_ & _ & HV & _ & Hd & file & name & em & ph & Hres & E1 & E2 & E3 & E).
  apply first_violation_None in HV as (V1 & V2 & V3 & V4 & _).
  exists file, name, em, ph. repeat (split; [ assumption | ]).
  unfold store_after. rewrite E. reflexivity.
Qed.

Lemma response_200_dec (r : option Response) :
  (exists b, r = Some {| status := 200; body := b |}) \/
  (forall b, r <> Some {| status := 200; body := b |}).
Proof.
  destruct r as [[st b] |]; [ | right; discriminate ].
  destruct (Z.eq_dec st 200) as [-> | N]; [ left; eauto | ].
  right. intros b' [= E _]. contradiction.
Qed.

(** ** Further properties: the upload step *)

Lemma fileFilter_refuses (file : FilePart) :
  ~ In (mimetype file) allowedMimeTypes ->
  fileFilter file = Some {| code := None; message := filter_message |}.
Proof.
  intros H. unfold fileFilter.
  destruct (existsb (jsstring_eqb (mimetype file)) allowedMimeTypes) eqn:E;
    [ | reflexivity ].
  apply existsb_exists in E as (t & Hin & Heq).
  apply jsstring_eqb_eq in Heq. subst. contradiction.
Qed.

Lemma fileFilter_accepts (file : FilePart) :
  In (mimetype file) allowedMimeTypes -> fileFilter file = None.
Proof.
  intros H. unfold fileFilter.
  replace (existsb (jsstring_eqb (mimetype file)) allowedMimeTypes) with true;
    [ reflexivity | ].
  symmetry. apply existsb_exists. exists (mimetype file).
  split; [ exact H | apply jsstring_eqb_refl ].
Qed.

Lemma remove_fresh (p : jsstring) (fs : list jsstring) :
  has_file p fs = false -> remove_file p fs = fs.
Proof.
  unfold has_file, remove_file.
  induction fs as [| q fs IH]; simpl; auto.
  intros H. apply orb_false_iff in H as [H1 H2].
  rewrite H1. simpl. now rewrite IH.
Qed.

(** X1: a file part whose declared type is neither of the two allowed ones
    is refused before anything else is looked at: whatever the text fields
    are, the answer is 400 with the message of the filter, nothing is
    written to the upload directory and no record is created. *)
Theorem X1_wrong_type_refused (env : Env) (req : Request) (s : Store)
    (file : FilePart) :
  is_POST req -> upload_fault env = None -> resume req = Some file ->
  ~ In (mimetype file) allowedMimeTypes ->
  response_of env req s
  = error_response 400 "Only PDF and DOCX files are allowed" /\
  table (store_after env req s) = table s /\
  files (store_after env req s) = files s.
Proof.
  intros HP HF HR HT.
  assert (HE : upload_error env req
               = Some {| code := None; message := filter_message |}).
  { unfold upload_error. now rewrite HF, HR, (fileFilter_refuses _ HT). }
  unfold response_of, store_after. rewrite (@serve_upload_error env req s _ HP HE).
  repeat split. simpl. unfold files_after_refusal.
  now rewrite HF, HR, (fileFilter_refuses _ HT).
Qed.

(** X2: a file part of an allowed type that is larger than 5 MiB is
    refused with 400 and the file-too-large message, whatever the text
    fields are.  No record is created and nothing is left at the path
    generated for the part: the part is written there and removed again,
    so the upload directory is as it was when that path was not in use
    (a file already at that path is gone). *)
Theorem X2_oversize_refused (env : Env) (req : Request) (s : Store)
    (file : FilePart) :
  is_POST req -> upload_fault env = None -> resume req = Some file ->
  In (mimetype file) allowedMimeTypes ->
  (5 * 1024 * 1024 < size file)%N ->
  let p := path (stored_file env file) in
  response_of env req s
  = error_response 400 "File size too large. Maximum 5MB allowed." /\
  table (store_after env req s) = table s /\
  has_file p (files (store_after env req s)) = false /\
  (has_file p (files s) = false -> files (store_after env req s) = files s).
Proof.
  intros HP HF HR HT HS p.
  assert (HL : (fileSize_limit <? size file)%N = true) by now apply N.ltb_lt.
  assert (HE : upload_error env req = Some LIMIT_FILE_SIZE).
  { unfold upload_error. now rewrite HF, HR, (fileFilter_accepts _ HT), HL. }
  unfold response_of, store_after. rewrite (@serve_upload_error env req s _ HP HE).
  simpl. unfold files_after_refusal.
  rewrite HF, HR, (fileFilter_accepts _ HT), HL. fold p.
  repeat split.
  - apply has_file_remove.
  - apply remove_fresh.
Qed.

(** X3: when the upload step fails, for whatever reason, the caller gets
    one of the three upload errors and never the internal-error response of
    the [catch] block, which runs after the response has been sent: the
    handler ends by throwing when the [catch] block tries to answer again.
    No record is created, and the error is logged twice, once by the
    upload callback and once by the [catch] block, before anything else. *)
Theorem X3_failed_upload (env : Env) (req : Request) (s : Store) :
  is_POST req -> ~ upload_passes env req ->
  (response_of env req s
   = error_response 400 "File size too large. Maximum 5MB allowed." \/
   response_of env req s
   = error_response 400 "Only PDF and DOCX files are allowed" \/
   response_of env req s = error_response 500 "File upload failed") /\
  response_of env req s <> error_response 500 "Internal server error" /\
  fst (serve env req s) = Throw ERR_HTTP_HEADERS_SENT /\
  table (store_after env req s) = table s /\
  exists e rest,
    console (store_after env req s)
    = console s ++ LogUploadError e :: LogApiError e :: rest.
Proof.
  intros HP HU.
  destruct (upload_error env req) as [e |] eqn:HE;
    [ | now apply upload_error_None in HE ].
  unfold response_of, store_after. rewrite (@serve_upload_error env req s _ HP HE).
  simpl.
  assert (R : Some (upload_error_response e)
              = error_response 400 "File size too large. Maximum 5MB allowed." \/
              Some (upload_error_response e)
              = error_response 400 "Only PDF and DOCX files are allowed" \/
              Some (upload_error_response e)
              = error_response 500 "File upload failed").
  { unfold upload_error_response.
    destruct (value_eqb (code e) (Some (js "LIMIT_FILE_SIZE"))); auto.
    destruct (jsstring_eqb (message e) filter_message) eqn:M; auto.
    apply jsstring_eqb_eq in M. rewrite M. auto. }
  split; [ exact R | ]. split.
  - destruct R as [-> | [-> | ->]]; discriminate.
  - repeat split. exists e, []. now rewrite <- app_assoc.
Qed.

(** ** Further properties: the table *)

(** X4: a record is created by an accepted submission and by nothing else:
    either the answer is 200 and the table has grown by exactly one row,
    with the next identifier, or the answer is not 200 and the table is
    exactly as it was. *)
Theorem X4_record_iff_success (env : Env) (req : Request) (s : Store) :
  (exists b row,
      response_of env req s = Some {| status := 200; body := b |} /\
      b = SuccessBody (js "Application submitted successfully!")
            (Prisma.next_id (table s)) /\
      Prisma.id row = Prisma.next_id (table s) /\
      table (store_after env req s)
      = {| Prisma.rows := Prisma.rows (table s) ++ [row];
           Prisma.next_id := (Prisma.next_id (table s) + 1)%Z |})
  \/ ((forall b, response_of env req s <> Some {| status := 200; body := b |}) /\
      table (store_after env req s) = table s).
Proof.
  destruct (response_200_dec (response_of env req s)) as [(b & H) | H].
  - left.
    destruct (@accepted_inv env req s b H)
      as (_ & _ & _ & _ & _ & file & name & em & ph & _ & _ & _ & _ & E).
    unfold response_of, store_after in *. rewrite E in *.
    unfold accepted_world in *. simpl in *.
    injection H as <-. eexists.
    exists (created_row req (stored_file env file) (table s) name em ph).
    repeat split.
  - right. split; auto using rejected_keeps_table.
Qed.

(** X5: every request is answered, and the status of the answer is 200,
    400, 405 or 500. *)
Theorem X5_always_answered (env : Env) (req : Request) (s : Store) :
  exists r,
    response_of env req s = Some r /\
    In (status r) [200; 400; 405; 500]%Z.
Proof.
  unfold response_of.
  destruct (serve_outcome env req s)
    as [(_ & E) | [(_ & e & _ & E) | [(_ & _ & m & _ & E)
       | (_ & _ & _ & file & _ &
          [(_ & _ & name & em & ph & _ & _ & _ & E)
          | [(_ & m & _ & E) | (e & E)]])]]];
    rewrite E; simpl; eexists; (split; [ reflexivity | ]); simpl; auto.
  destruct (upload_error_response_status e) as [-> | ->]; auto.
Qed.

Lemma NoDup_snoc (A : Type) (l : list A) (x : A) :
  NoDup l -> ~ In x l -> NoDup (l ++ [x]).
Proof.
  induction 1 as [| y l Hy Hl IH]; simpl; intros Hx.
  - constructor; [ intros [] | constructor ].
  - constructor.
    + rewrite in_app_iff. simpl. intros [H | [-> | []]]; auto.
    + apply IH. auto.
Qed.

Lemma findFirst_None_not_In (field : Prisma.Applicant -> jsstring)
    (v : jsstring) (t : Prisma.Table) :
  Prisma.findFirst field (Some v) t = None ->
  ~ In v (map field (Prisma.rows t)).
Proof.
  simpl. intros H Hin. apply in_map_iff in Hin as (a & <- & Ha).
  pose proof (find_none _ _ H a Ha) as E. simpl in E.
  now rewrite jsstring_eqb_refl in E.
Qed.

Lemma check_phone_passed (req : Request) (ph : jsstring) :
  check_phone req = None -> phone req = Some ph ->
  ten_digits ph /\ trim ph = ph.
Proof.
  unfold check_phone. intros H E.
  destruct (truthy (optTrim (phone req))); simpl in H; [ | discriminate ].
  destruct (validatePhone (phone req)) eqn:V; [ | discriminate ].
  apply validatePhone_digits in V as (p & Hp & T).
  rewrite E in Hp. injection Hp as ->. split; auto.
  apply trim_no_space. now apply ten_digits_no_space.
Qed.

Lemma check_email_passed (req : Request) (em : jsstring) :
  check_email req = None -> email req = Some em ->
  email_shape em /\ trim em = em.
Proof.
  unfold check_email. intros H E.
  destruct (truthy (optTrim (email req))); simpl in H; [ | discriminate ].
  destruct (validateEmail (email req)) eqn:V; [ | discriminate ].
  apply validateEmail_shape in V as (p & Hp & T).
  rewrite E in Hp. injection Hp as ->. split; auto.
  apply trim_no_space. now apply email_shape_no_space.
Qed.

Lemma phones_stay_distinct_step (env : Env) (req : Request) (s : Store) :
  NoDup (phones (table s)) ->
  NoDup (phones (table (store_after env req s))).
Proof.
  intros ND.
  destruct (response_200_dec (response_of env req s)) as [(b & H) | H];
    [ | now rewrite (@rejected_keeps_table env req s H) ].
  destruct (@accepted_row env req s b H)
    as (file & name & em & ph & _ & _ & _ & E3 & _ & _ & V3 & _ & (_ & D2) & T).
  rewrite T. unfold phones. simpl. rewrite map_app. simpl.
  destruct (@check_phone_passed req ph V3 E3) as (_ & ->).
  apply NoDup_snoc; auto.
  rewrite E3 in D2. now apply findFirst_None_not_In in D2.
Qed.

Lemma emails_stay_distinct_step (env : Env) (req : Request) (s : Store) :
  (forall e, email req = Some e -> toLowerCase e = e) ->
  NoDup (emails (table s)) ->
  NoDup (emails (table (store_after env req s))).
Proof.
  intros HL ND.
  destruct (response_200_dec (response_of env req s)) as [(b & H) | H];
    [ | now rewrite (@rejected_keeps_table env req s H) ].
  destruct (@accepted_row env req s b H)
    as (file & name & em & ph & _ & _ & E2 & _ & _ & V2 & _ & _ & (D1 & _) & T).
  rewrite T. unfold emails. simpl. rewrite map_app. simpl.
  destruct (@check_email_passed req em V2 E2) as (_ & ->).
  rewrite (HL em E2).
  apply NoDup_snoc; auto.
  rewrite E2 in D1. now apply findFirst_None_not_In in D1.
Qed.

(** X6: requests handled one after the other -- each one run to its end
    before the next one starts -- keep the phones of the table distinct: if
    no two rows have the same phone before them, none have after them,
    whatever the requests and whatever fails.  (Requests running side by
    side are another matter: the handler awaits between the phone lookup
    and the creation, and the table has no uniqueness constraint.) *)
Theorem X6_phones_stay_distinct (runs : list (Env * Request)) (s : Store) :
  NoDup (phones (table s)) ->
  NoDup (phones (table (serve_all runs s))).
Proof.
  revert s. induction runs as [| [env req] runs IH]; intros s ND; simpl.
  - exact ND.
  - apply IH. now apply phones_stay_distinct_step.
Qed.

(** X7: requests handled one after the other -- each one run to its end
    before the next one starts -- whose emails are submitted in the form
    they are stored in (lower-casing leaves them as they are) keep the
    emails of the table distinct. *)
Theorem X7_lower_case_emails_stay_distinct (runs : list (Env * Request))
    (s : Store) :
  (forall env req e,
      In (env, req) runs -> email req = Some e -> toLowerCase e = e) ->
  NoDup (emails (table s)) ->
  NoDup (emails (table (serve_all runs s))).
Proof.
  revert s. induction runs as [| [env req] runs IH]; intros s HL ND; simpl.
  - exact ND.
  - apply IH.
    + intros env' req' e Hin. apply (HL env' req' e). now right.
    + apply emails_stay_distinct_step; auto.
      intros e. apply (HL env req e). now left.
Qed.

Lemma plain_no_at (s : jsstring) :
  Forall (fun c => not_space_or_at c = true) s ->
  count_occ N.eq_dec s (cu "@") = 0%nat.
Proof.
  induction 1 as [| c s Hc _ IH]; [ reflexivity | ].
  rewrite count_occ_cons_neq; [ exact IH | ].
  intros ->. vm_compute in Hc. discriminate.
Qed.

(** X15: an email that passes the pattern has no white space and exactly
    one [@], so trimming leaves it as it is; for an accepted submission the
    string looked up by the duplicate-email check is the submitted one, and
    the string stored is its lower-cased form -- for a Basic Latin email,
    the same string with [A]-[Z] replaced by [a]-[z]. *)
Theorem X15_email_lookup_and_stored :
  (forall v, validateEmail v = true ->
             exists e, v = Some e /\ trim e = e /\
                       Forall (fun c => isWhiteSpace c = false) e /\
                       count_occ N.eq_dec e (cu "@") = 1%nat) /\
  (forall (env : Env) (req : Request) (s : Store) (b : Json),
      response_of env req s = Some {| status := 200; body := b |} ->
      exists e row,
        email req = Some e /\
        Prisma.findFirst Prisma.email (Some e) (table s) = None /\
        Prisma.rows (table (store_after env req s))
        = Prisma.rows (table s) ++ [row] /\
        Prisma.email row = toLowerCase e /\
        (forallb isBasicLatin e = true ->
         Prisma.email row = map lowerBasicLatin e)).
Proof.
  split.
  - intros v H. apply validateEmail_shape in H as (e & -> & S).
    exists e. split; auto.
    destruct (email_shape_no_space S) as (_ & F).
    split; [ now apply trim_no_space | ]. split; [ exact F | ].
    destruct S as (loc & dom & tld & [_ F1] & [_ F2] & [_ F3] & ->).
    rewrite !count_occ_app.
    pose proof (plain_no_at F1) as C1. pose proof (plain_no_at F2) as C2.
    pose proof (plain_no_at F3) as C3.
    unfold code_unit in *. rewrite C1, C2, C3. reflexivity.
  - intros env req s b H.
    destruct (@accepted_row env req s b H)
      as (file & name & em & ph & _ & _ & E2 & _ & _ & V2 & _ & _ & (D1 & _)
          & T).
    destruct (@check_email_passed req em V2 E2) as (_ & Ht).
    exists em, (created_row req (stored_file env file) (table s) name em ph).
    split; [ assumption | ]. split; [ now rewrite <- E2 | ].
    rewrite T. simpl. rewrite Ht. repeat split.
    intros HB. unfold toLowerCase.
    replace (forallb (fun c => isBasicLatin c || isWhiteSpace c) em) with true;
      [ reflexivity | ].
    symmetry. apply forallb_forall. intros c Hc.
    rewrite forallb_forall in HB. now rewrite (HB c Hc).
Qed.

Lemma trim_truthy_nonempty (v : value) (s : jsstring) :
  truthy (optTrim v) = true -> v = Some s -> trim s <> [].
Proof.
  intros H ->. simpl in H. destruct (trim s); [ discriminate | discriminate ].
Qed.

(** X16: every row the handler creates is well formed -- a phone of ten
    digits, a full name that is not empty, a linkedin that is not empty
    when there is one, a resume path under [resumes/] -- so a table of well
    formed rows stays one, whatever the request and whatever fails. *)
Theorem X16_rows_stay_well_formed (env : Env) (req : Request) (s : Store) :
  Forall well_formed_row (Prisma.rows (table s)) ->
  Forall well_formed_row (Prisma.rows (table (store_after env req s))).
Proof.
  intros WF.
  destruct (response_200_dec (response_of env req s)) as [(b & H) | H];
    [ | now rewrite (@rejected_keeps_table env req s H) ].
  destruct (@accepted_row env req s b H)
    as (file & name & em & ph & _ & E1 & _ & E3 & V1 & _ & V3 & _ & _ & T).
  rewrite T. simpl. apply Forall_app. split; [ exact WF | ].
  constructor; [ | constructor ].
  unfold well_formed_row, created_row. simpl.
  destruct (@check_phone_passed req ph V3 E3) as (TD & ->).
  split; [ exact TD | ]. split.
  - unfold check_full_name in V1.
    destruct (truthy (optTrim (fullName req))) eqn:Tn; [ | discriminate ].
    now apply (@trim_truthy_nonempty (fullName req) name).
  - split; [ | eauto ].
    destruct (truthy (optTrim (linkedin req))) eqn:Tl; [ | exact I ].
    destruct (linkedin req) as [l |]; simpl in *; [ | discriminate ].
    destruct (trim l); [ discriminate | discriminate ].
Qed.




(** ** Further properties: the stored file *)

Lemma remove_add_fresh (p : jsstring) (fs : list jsstring) :
  has_file p fs = false -> remove_file p (add_file p fs) = fs.
Proof.
  intros H. unfold add_file. rewrite H. unfold remove_file. simpl.
  rewrite jsstring_eqb_refl. simpl.
  unfold has_file in H. induction fs as [| q fs IH]; simpl in *; auto.
  apply orb_false_iff in H as [H1 H2].
  rewrite H1. simpl. now rewrite IH.
Qed.

Lemma violation_messages (req : Request) (stored : option StoredFile)
    (m : string) :
  first_violation (field_checks req stored) = Some m ->
  In m [ "Full name is required"; "Email is required"; "Invalid email format";
         "Phone number is required"; "Phone number must be exactly 10 digits";
         "Invalid LinkedIn URL format"; "Resume file is required" ]%string.
Proof.
  unfold field_checks, text_checks, check_full_name, check_email, check_phone,
    check_linkedin, check_file.
  destruct (truthy (optTrim (fullName req))); simpl;
    [ | intros [= <-]; tauto ].
  destruct (truthy (optTrim (email req))); simpl; [ | intros [= <-]; tauto ].
  destruct (validateEmail (email req)); simpl; [ | intros [= <-]; tauto ].
  destruct (truthy (optTrim (phone req))); simpl; [ | intros [= <-]; tauto ].
  destruct (validatePhone (phone req)); simpl; [ | intros [= <-]; tauto ].
  destruct (truthy (linkedin req) && negb (validateLinkedIn (linkedin req)));
    simpl; [ intros [= <-]; tauto | ].
  destruct stored; simpl; [ discriminate | intros [= <-]; tauto ].
Qed.

Lemma uploaded_stored (env : Env) (req : Request) (file : FilePart)
    (stored : StoredFile) :
  resume req = Some file -> uploaded env req = Some stored ->
  stored = stored_file env file.
Proof. unfold uploaded. intros ->. simpl. now intros [= <-]. Qed.

(** X9: a submission refused as a duplicate leaves no file behind: the
    file stored for it is gone when the duplicate error is answered, and
    the upload directory is exactly as it was before the request (for a
    path that was not in use). *)
Theorem X9_duplicate_leaves_no_file (env : Env) (req : Request) (s : Store)
    (file : FilePart) :
  is_POST req -> upload_passes env req -> resume req = Some file ->
  response_of env req s
  = error_response 400 "An application with this email already exists" \/
  response_of env req s
  = error_response 400 "An application with this phone number already exists" ->
  let p := path (stored_file env file) in
  has_file p (files (store_after env req s)) = false /\
  (has_file p (files s) = false -> files (store_after env req s) = files s).
Proof.
  intros HP HU HR H p.
  unfold response_of, store_after in *.
  destruct (serve_outcome env req s)
    as [(N & _) | [(_ & e & E & _) | [(_ & _ & m & HV & E)
       | (_ & _ & _ & stored & Hup &
          [(_ & _ & name & em & ph & _ & _ & _ & E)
          | [(_ & m & _ & E) | (e & E)]])]]].
  - contradiction.
  - apply upload_error_None in HU. congruence.
  - exfalso. rewrite E in H. simpl in H.
    apply violation_messages in HV. simpl in HV.
    destruct H as [[= H] | [= H]];
      repeat (destruct HV as [<- | HV]; [ discriminate H | ]); exact HV.
  - exfalso. rewrite E in H. destruct H; discriminate.
  - pose proof (@uploaded_stored env req file stored HR Hup) as Es.
    subst stored. rewrite E. simpl. fold p.
    unfold files_with_upload. rewrite Hup. simpl. fold p. split.
    + apply has_file_remove.
    + apply remove_add_fresh.
  - exfalso. rewrite E in H. destruct H; discriminate.
Qed.

(** X10: when the [try] block fails after the upload and the caller gets
    the internal-error response, the [catch] block has tried to delete the
    stored file: if that deletion goes through the file is gone; if it
    throws, the file stays, the failure is the last line logged, and the
    response is the same. *)
Theorem X10_cleanup_after_fault (env : Env) (req : Request) (s : Store)
    (file : FilePart) :
  is_POST req -> upload_passes env req -> resume req = Some file ->
  response_of env req s = error_response 500 "Internal server error" ->
  let p := path (stored_file env file) in
  exists e,
    match cleanup_unlink_fault env with
    | None =>
        has_file p (files (store_after env req s)) = false /\
        console (store_after env req s) = console s ++ [LogApiError e]
    | Some e' =>
        has_file p (files (store_after env req s)) = true /\
        console (store_after env req s)
        = console s ++ [LogApiError e; LogCleanupError e']
    end.
Proof.
  intros HP HU HR H p.
  unfold response_of, store_after in *.
  destruct (serve_outcome env req s)
    as [(N & _) | [(_ & e & E & _) | [(_ & _ & m & HV & E)
       | (_ & _ & _ & stored & Hup &
          [(_ & _ & name & em & ph & _ & _ & _ & E)
          | [(_ & m & _ & E) | (e & E)]])]]].
  - contradiction.
  - apply upload_error_None in HU. congruence.
  - rewrite E in H. discriminate.
  - rewrite E in H. discriminate.
  - rewrite E in H. discriminate.
  - pose proof (@uploaded_stored env req file stored HR Hup) as Es.
    subst stored. exists e. rewrite E. unfold caught_world. simpl.
    pose proof (has_file_uploaded env req (files s) Hup) as Hhas.
    fold p in Hhas |- *.
    destruct (cleanup_unlink_fault env); simpl; split; auto.
    + now rewrite <- app_assoc.
    + apply has_file_remove.
Qed.

Lemma handler_catch_cleanup_fault (env : Env) (f : option JsError)
    (e : JsError) (w : World) :
  let out := handler_catch env e w in
  let out' := handler_catch (with_cleanup_fault env f) e w in
  res (snd out') = res (snd out) /\
  table (store (snd out')) = table (store (snd out)) /\
  fst out' = fst out.
Proof.
  unfold with_cleanup_fault. run. cbn [cleanup_unlink_fault].
  destruct (req_file w) as [file |]; run.
  - destruct f, (cleanup_unlink_fault env); run;
      destruct (has_file (path file) (files (store w))); run;
      destruct (res w); run; repeat split.
  - destruct (res w); run; repeat split.
Qed.

(** X11: whether the deletion of the [catch] block goes through or throws
    makes no difference to the caller or to the table: the response, the
    table and the way the handler ends are the same. *)
Theorem X11_cleanup_fault_unobservable (env : Env) (f : option JsError)
    (req : Request) (s : Store) :
  let env' := with_cleanup_fault env f in
  response_of env' req s = response_of env req s /\
  table (store_after env' req s) = table (store_after env req s) /\
  fst (serve env' req s) = fst (serve env req s).
Proof.
  intros env'. unfold response_of, store_after, serve, handler.
  destruct (negb (value_eqb (method req) (Some (js "POST"))));
    [ repeat split | ].
  change (handler_try env' req) with (handler_try env req).
  unfold try_catch.
  destruct (handler_try env req {| store := s; res := None; req_file := None |})
    as [[[] | e] w]; [ repeat split | ].
  exact (handler_catch_cleanup_fault env f e w).
Qed.

(** ** Further properties: the linkedin check *)

Lemma startsWith_prefix (sub : jsstring) :
  forall s, startsWith s sub = true <-> exists post, s = sub ++ post.
Proof.
  induction sub as [| x sub IH]; intros s.
  - destruct s; simpl; split; eauto.
  - destruct s as [| c s]; simpl.
    + split; [ discriminate | intros (post & [=]) ].
    + rewrite andb_true_iff, N.eqb_eq, IH. split.
      * intros (-> & post & ->). eauto.
      * intros (post & [= -> ->]). eauto.
Qed.

Lemma includes_infix (sub s : jsstring) :
  includes s sub = true <-> exists pre post, s = pre ++ sub ++ post.
Proof.
  induction s as [| c s IH].
  - change (includes [] sub) with (startsWith [] sub || false).
    rewrite orb_false_r, startsWith_prefix. split.
    + intros (post & ->). exists [], post. reflexivity.
    + intros (pre & post & H). symmetry in H.
      apply app_eq_nil in H as (-> & H). eauto.
  - change (includes (c :: s) sub)
      with (startsWith (c :: s) sub || includes s sub).
    rewrite orb_true_iff, startsWith_prefix, IH. split.
    + intros [(post & ->) | (pre & post & ->)].
      * exists [], post. reflexivity.
      * exists (c :: pre), post. reflexivity.
    + intros ([| c' pre] & post & H); simpl in H.
      * left. eauto.
      * injection H as -> ->. right. eauto.
Qed.

(** X12: the linkedin check passes an absent or empty field; a field made
    of Basic Latin characters and white space passes exactly when it
    contains [linkedin.com/in/] in some mix of upper and lower case --
    anywhere in the string, nothing else being asked of it. *)
Theorem X12_linkedin_check :
  validateLinkedIn None = true /\
  validateLinkedIn (Some []) = true /\
  (forall s,
      s <> [] -> forallb basic_or_space s = true ->
      (validateLinkedIn (Some s) = true <->
       exists pre v post,
         s = pre ++ v ++ post /\
         map lowerBasicLatin v = js "linkedin.com/in/")).
Proof.
  split; [ reflexivity | ]. split; [ reflexivity | ].
  intros s Hne Hb. unfold validateLinkedIn.
  destruct s as [| c s]; [ congruence | ].
  cbn [truthy negb ToString]. unfold toLowerCase.
  change (fun c0 => isBasicLatin c0 || isWhiteSpace c0) with basic_or_space.
  rewrite Hb, includes_infix. split.
  - intros (pre & post & H).
    apply map_eq_app in H as (pre' & rest & Hs & Hpre & Hrest).
    apply map_eq_app in Hrest as (v & post' & Hr & Hv & Hpost).
    exists pre', v, post'. subst rest. auto.
  - intros (pre & v & post & -> & Hv).
    exists (map lowerBasicLatin pre), (map lowerBasicLatin post).
    now rewrite !map_app, Hv.
Qed.

(** ** Further properties: the name of the stored file *)

Lemma unsafe_char_underscore : unsafe_char (cu "_") = true.
Proof. reflexivity. Qed.

Lemma sanitized_chars (s : jsstring) :
  Forall (fun d => safe_char d \/ d = cu "_")
         (replace_class unsafe_char (js "_") s).
Proof.
  unfold replace_class. induction s as [| c s IH]; simpl; [ constructor | ].
  destruct (unsafe_char c) eqn:E; simpl; constructor; auto.
  left. now apply unsafe_char_safe.
Qed.

Lemma uint_digits (d : Decimal.uint) :
  Forall (fun c => (cu "0" <= c <= cu "9")%N)
         (js (NilEmpty.string_of_uint d)).
Proof.
  induction d; simpl; try constructor; auto; unfold cu; simpl; lia.
Qed.

Lemma NumberToString_chars (n : Z) :
  Forall (fun c => safe_char c) (NumberToString n).
Proof.
  assert (D : forall d, Forall (fun c => safe_char c)
                               (js (NilZero.string_of_uint d))).
  { intros d.
    assert (D0 : Forall (fun c => safe_char c) (js (NilEmpty.string_of_uint d))).
    { eapply Forall_impl; [ | apply uint_digits ].
      intros c H. unfold safe_char. auto. }
    destruct d; try exact D0.
    constructor; [ | constructor ].
    unfold safe_char, cu. simpl. right. right. left. lia. }
  unfold NumberToString, NilZero.string_of_int.
  destruct (Z.to_int n) as [d | d].
  - apply D.
  - change (js (String "-" (NilZero.string_of_uint d)))
      with (cu "-" :: js (NilZero.string_of_uint d)).
    constructor; [ | apply D ]. unfold safe_char. do 4 right. reflexivity.
Qed.

(** X13: whatever the original name of the upload, the name it is stored
    under is made of characters of [[A-Za-z0-9.-]] and underscores only; in
    particular it holds no slash, no backslash and no NUL, so the stored
    path is the upload directory, a slash, and a single path segment. *)
Theorem X13_stored_name_is_one_segment (env : Env) (file : FilePart) :
  let name := filename (stored_file env file) in
  Forall (fun c => safe_char c \/ c = cu "_") name /\
  Forall (fun c => c <> 47%N /\ c <> 92%N /\ c <> 0%N) name /\
  path (stored_file env file) = uploadDir env ++ js "/" ++ name.
Proof.
  intros name.
  assert (F : Forall (fun c => safe_char c \/ c = cu "_") name).
  { unfold name, stored_file, storage_filename. cbn [filename].
    apply Forall_app. split.
    - eapply Forall_impl; [ | apply NumberToString_chars ]. auto.
    - change (js "-" ++ sanitizedName file)
        with (cu "-" :: sanitizedName file).
      constructor; [ | apply sanitized_chars ].
      left. unfold safe_char. do 4 right. reflexivity. }
  split; [ exact F | ]. split; [ | reflexivity ].
  eapply Forall_impl; [ | exact F ].
  intros c [H | ->]; [ | repeat split; discriminate ].
  unfold safe_char, cu in H. simpl in H. lia.
Qed.

(** X14: sanitizing is idempotent, and the names it leaves unchanged are
    exactly those made of characters of [[A-Za-z0-9.-]] and underscores. *)
Theorem X14_sanitize_idempotent (s : jsstring) :
  let sanitize := replace_class unsafe_char (js "_") in
  sanitize (sanitize s) = sanitize s /\
  (sanitize s = s <-> Forall (fun c => safe_char c \/ c = cu "_") s).
Proof.
  intros sanitize.
  assert (Fix : forall t, Forall (fun c => safe_char c \/ c = cu "_") t ->
                          sanitize t = t).
  { unfold sanitize, replace_class.
    induction 1 as [| c t Hc _ IH]; simpl; auto.
    destruct Hc as [Hc | ->].
    - apply unsafe_char_safe in Hc. rewrite Hc. simpl. now rewrite IH.
    - rewrite unsafe_char_underscore. simpl. now rewrite IH. }
  split.
  - apply Fix. apply sanitized_chars.
  - split; [ | apply Fix ].
    intros <-. apply sanitized_chars.
Qed.

(** ** Further properties: the form and the handler *)

Lemma check_email_None (req : Request) :
  check_email req = None <-> email_passes (email req) = true.
Proof.
  unfold check_email, email_passes.
  destruct (truthy (optTrim (email req))); simpl; [ | split; discriminate ].
  destruct (validateEmail (email req)); split; auto; discriminate.
Qed.

Lemma check_phone_None (req : Request) :
  check_phone req = None <-> phone_passes (phone req) = true.
Proof.
  unfold check_phone, phone_passes.
  destruct (truthy (optTrim (phone req))); simpl; [ | split; discriminate ].
  destruct (validatePhone (phone req)); split; auto; discriminate.
Qed.

Lemma test_email_passes (e : jsstring) :
  test emailRegex e = true -> email_passes (Some e) = true.
Proof.
  intros H. apply email_passes_shape. exists e. split; auto.
  now apply Matches_emailRegex, test_Matches.
Qed.

Lemma test_phone_passes (p : jsstring) :
  test phoneRegex p = true -> phone_passes (Some p) = true.
Proof.
  intros H. apply phone_passes_digits. exists p. split; auto.
  now apply Matches_phoneRegex, test_Matches.
Qed.

(** X17: what the form lets through, the handler does not refuse on the
    same grounds: a submission that has passed the client-side validations,
    with a file below the size limit, passes the upload step (type and
    size) and the full-name, email, phone and file-present checks of the
    handler, so the only errors it can still get are the linkedin error,
    the two duplicate errors and the internal error.  (A file of exactly
    the limit passes the form; what multer does with it depends on the
    release, and nothing is said of it here.) *)
Theorem X17_form_checks_suffice (env : Env) (s : Store) (i : FormInput) :
  client_validations i = None -> upload_fault env = None ->
  (forall f, selectedFile i = Some f -> (file_size f < 5 * 1024 * 1024)%N) ->
  let req := form_request i in
  upload_passes env req /\
  check_full_name req = None /\ check_email req = None /\
  check_phone req = None /\ check_file (uploaded env req) = None /\
  ((exists b, response_of env req s = Some {| status := 200; body := b |})
   \/ response_of env req s = error_response 400 "Invalid LinkedIn URL format"
   \/ response_of env req s
      = error_response 400 "An application with this email already exists"
   \/ response_of env req s
      = error_response 400 "An application with this phone number already exists"
   \/ response_of env req s = error_response 500 "Internal server error").
Proof.
  intros H HF HB req. unfold client_validations in H.
  destruct (truthy (Some (trim (input_fullName i)))) eqn:Vn;
    cbn [negb] in H; [ | discriminate ].
  destruct (test emailRegex (input_email i)) eqn:Ve;
    cbn [negb] in H; [ | discriminate ].
  destruct (test phoneRegex (input_phone i)) eqn:Vp;
    cbn [negb] in H; [ | discriminate ].
  destruct (selectedFile i) as [file |] eqn:Sf; [ | discriminate ].
  destruct (existsb (jsstring_eqb (file_type file)) allowedMimeTypes) eqn:Vt;
    cbn [negb] in H; [ | discriminate ].
  destruct (5 * 1024 * 1024 <? file_size file)%N eqn:Vs; [ discriminate | ].
  assert (HP : is_POST req) by reflexivity.
  assert (HU : upload_passes env req).
  { split; [ exact HF | ]. unfold req, form_request. cbn [resume].
    rewrite Sf. cbn [option_map]. split.
    - unfold fileFilter. cbn [mimetype file_part]. now rewrite Vt.
    - apply N.lt_le_incl. exact (HB file eq_refl). }
  assert (C1 : check_full_name req = None).
  { unfold check_full_name, req, form_request.
    cbn [fullName optTrim option_map]. now rewrite Vn. }
  assert (C2 : check_email req = None).
  { apply check_email_None. now apply test_email_passes. }
  assert (C3 : check_phone req = None).
  { apply check_phone_None. now apply test_phone_passes. }
  assert (C5 : check_file (uploaded env req) = None).
  { unfold uploaded, req, form_request. cbn [resume]. now rewrite Sf. }
  repeat (split; [ assumption | ]).
  pose proof (@response_cases env req s HP HU) as R.
  unfold field_checks, text_checks in R. simpl in R.
  rewrite C1, C2, C3, C5 in R.
  unfold check_linkedin in R.
  destruct (truthy (linkedin req) && negb (validateLinkedIn (linkedin req)));
    simpl in R; tauto.
Qed.

(** X18: the handler checks again all the form checks: a submission the
    handler accepts is one the client-side validations would have let
    through, so whatever the form refuses the handler refuses too. *)
Theorem X18_handler_rechecks_form (env : Env) (s : Store) (i : FormInput)
    (b : Json) :
  response_of env (form_request i) s = Some {| status := 200; body := b |} ->
  client_validations i = None.
Proof.
  intros H.
  destruct (@accepted_inv env (form_request i) s b H)
    as (_ & (_ & HU) & HV & _ & _ & file & _ & _ & _ & Hres & _).
  apply first_violation_None in HV as (V1 & V2 & V3 & _ & _).
  unfold client_validations.
  unfold check_full_name in V1.
  cbn [form_request fullName optTrim option_map] in V1.
  destruct (truthy (Some (trim (input_fullName i)))); [ | discriminate V1 ].
  cbn [negb].
  apply check_email_None in V2. unfold email_passes, validateEmail in V2.
  cbn [form_request email ToString] in V2.
  apply andb_true_iff in V2 as (_ & V2). rewrite V2. cbn [negb].
  apply check_phone_None in V3. unfold phone_passes, validatePhone in V3.
  cbn [form_request phone ToString] in V3.
  apply andb_true_iff in V3 as (_ & V3). rewrite V3. cbn [negb].
  cbn [form_request resume] in Hres, HU.
  destruct (selectedFile i) as [f |]; cbn [option_map] in Hres, HU;
    [ | discriminate Hres ].
  destruct HU as (HT & HS). unfold fileFilter in HT.
  cbn [file_part mimetype] in HT.
  destruct (existsb (jsstring_eqb (file_type f)) allowedMimeTypes);
    [ | discriminate HT ].
  cbn [negb].
  replace (5 * 1024 * 1024 <? file_size f)%N with false; [ reflexivity | ].
  symmetry. apply N.ltb_ge. exact HS.
Qed.

(** ** Further properties: the answer to a valid submission *)

Lemma findFirst_found (field : Prisma.Applicant -> jsstring) (v : jsstring)
    (t : Prisma.Table) :
  (exists a, In a (Prisma.rows t) /\ field a = v) ->
  exists a, Prisma.findFirst field (Some v) t = Some a.
Proof.
  intros (a & Hin & Ha). simpl.
  destruct (find (fun a0 => jsstring_eqb (field a0) v) (Prisma.rows t))
    as [a' |] eqn:E; [ eauto | ].
  pose proof (find_none _ _ E a Hin) as N. simpl in N.
  rewrite Ha, jsstring_eqb_refl in N. discriminate.
Qed.

Lemma findFirst_not_found (field : Prisma.Applicant -> jsstring) (v : jsstring)
    (t : Prisma.Table) :
  (forall a, In a (Prisma.rows t) -> field a <> v) ->
  Prisma.findFirst field (Some v) t = None.
Proof.
  intros H. simpl. apply find_none_all. intros a Ha.
  apply jsstring_eqb_neq. auto.
Qed.

(** X19: with nothing failing, what a submission that passes every field
    check is answered depends on the two lookups only, the email one going
    first: the duplicate-email error when a row has the email exactly as
    submitted; otherwise the duplicate-phone error when a row has the
    submitted phone; otherwise 200, the submission being accepted. *)
Theorem X19_answer_to_valid_submission (env : Env) (req : Request) (s : Store)
    (e p : jsstring) :
  is_POST req -> upload_passes env req ->
  first_violation (field_checks req (uploaded env req)) = None ->
  no_fault env ->
  email req = Some e -> phone req = Some p ->
  let rows := Prisma.rows (table s) in
  ((exists a, In a rows /\ Prisma.email a = e) ->
   response_of env req s
   = error_response 400 "An application with this email already exists") /\
  ((forall a, In a rows -> Prisma.email a <> e) ->
   (exists a, In a rows /\ Prisma.phone a = p) ->
   response_of env req s
   = error_response 400 "An application with this phone number already exists")
  /\
  ((forall a, In a rows -> Prisma.email a <> e) ->
   (forall a, In a rows -> Prisma.phone a <> p) ->
   exists b, response_of env req s = Some {| status := 200; body := b |}).
Proof.
  intros HP HU HV (_ & (F1 & F2 & F3) & U & _) E2 E3 rows.
  destruct (@serve_valid env req s HP HU HV) as (file & Hup & Hserve).
  unfold response_of. rewrite Hserve. repeat split.
  - intros H. apply findFirst_found in H as (a & D1). rewrite <- E2 in D1.
    pose proof (@persist_duplicate_email env req s file a Hup F1 D1) as R.
    simpl in R. rewrite U in R. tauto.
  - intros H1 H2. apply findFirst_not_found in H1. rewrite <- E2 in H1.
    apply findFirst_found in H2 as (a & D2). rewrite <- E3 in D2.
    pose proof (@persist_duplicate_phone env req s file a Hup F1 F2 U H1 D2)
      as R.
    simpl in R. tauto.
  - intros H1 H2.
    apply findFirst_not_found in H1, H2. rewrite <- E2 in H1.
    rewrite <- E3 in H2.
    apply first_violation_None in HV as (V1 & _).
    unfold check_full_name in V1.
    destruct (fullName req) as [name |] eqn:E1; [ | discriminate ].
    rewrite (@persist_accepts env req s file name e p Hup
               (conj F1 (conj F2 F3)) (conj H1 H2) E1 E2 E3).
    unfold accepted_world. simpl. eauto.
Qed.

Lemma has_file_add_other (p q : jsstring) (fs : list jsstring) :
  q <> p -> has_file q (add_file p fs) = has_file q fs.
Proof.
  intros H. unfold add_file. destruct (has_file p fs); auto.
  unfold has_file. simpl.
  replace (jsstring_eqb q p) with false; auto.
  symmetry. now apply jsstring_eqb_neq.
Qed.

Lemma has_file_remove_other (p q : jsstring) (fs : list jsstring) :
  q <> p -> has_file q (remove_file p fs) = has_file q fs.
Proof.
  intros H. unfold has_file, remove_file.
  induction fs as [| r fs IH]; simpl; auto.
  destruct (jsstring_eqb p r) eqn:E; simpl.
  - apply jsstring_eqb_eq in E. subst r.
    replace (jsstring_eqb q p) with false; auto.
    symmetry. now apply jsstring_eqb_neq.
  - now rewrite IH.
Qed.

(** X20: the handler leaves every other file of the upload directory
    alone: whatever the request and whatever fails, the only path whose
    presence can change is the one the file of this request is stored
    under. *)
Theorem X20_other_files_untouched (env : Env) (req : Request) (s : Store)
    (q : jsstring) :
  (forall file, resume req = Some file -> q <> path (stored_file env file)) ->
  has_file q (files (store_after env req s)) = has_file q (files s).
Proof.
  intros Hq. unfold store_after.
  assert (W : has_file q (files_with_upload env req (files s))
              = has_file q (files s)).
  { unfold files_with_upload, uploaded.
    destruct (resume req) as [file |]; cbn [option_map]; auto.
    apply has_file_add_other. exact (Hq file eq_refl). }
  assert (R : forall stored, uploaded env req = Some stored ->
                has_file q (remove_file (path stored)
                              (files_with_upload env req (files s)))
                = has_file q (files s)).
  { intros stored Hup. rewrite has_file_remove_other; auto.
    unfold uploaded in Hup.
    destruct (resume req) as [file |]; cbn [option_map] in Hup;
      [ | discriminate ].
    injection Hup as <-. exact (Hq file eq_refl). }
  assert (X : has_file q (files_after_refusal env req (files s))
              = has_file q (files s)).
  { unfold files_after_refusal.
    destruct (upload_fault env); auto.
    destruct (resume req) as [file |]; auto.
    destruct (fileFilter file); auto.
    destruct (fileSize_limit <? size file)%N; auto.
    apply has_file_remove_other. exact (Hq file eq_refl). }
  destruct (serve_outcome env req s)
    as [(_ & E) | [(_ & e & _ & E) | [(_ & _ & m & _ & E)
       | (_ & _ & _ & stored & Hup &
          [(_ & _ & name & em & ph & _ & _ & _ & E)
          | [(_ & m & _ & E) | (e & E)]])]]];
    rewrite E; simpl; auto.
  destruct (cleanup_unlink_fault env); simpl; auto.
Qed.

End Apply.

(** ** The theorems at the sample data *)

Lemma sample_upload_passes (m : string) (name em ph li : value) :
  upload_passes sample_env (sample_request m name em ph li).
Proof.
  split; [ reflexivity | ]. split; [ reflexivity | ].
  vm_compute. discriminate.
Defined.

Lemma C9_method_not_allowed_witness :
  let req := sample_request "GET" None None None None in
  method req <> Some (js "POST") /\
  serve no_case_table sample_env req sample_store
  = (Ok tt, {| store := sample_store;
               res := error_response 405 "Method Not Allowed";
               req_file := None |}).
Proof.
  intros req.
  assert (H : method req <> Some (js "POST")) by (vm_compute; discriminate).
  split; [ exact H | ].
  exact (@C9_method_not_allowed no_case_table sample_env req sample_store H).
Defined.

Lemma C8_stored_file_name_witness :
  upload_passes sample_env good_request /\
  resume good_request = Some sample_file /\
  exists stored,
    req_file (snd (upload_step sample_env good_request
                     {| store := sample_store; res := None; req_file := None |}))
    = Some stored /\
    filename stored = js "1700000000000-my_cv_1_.pdf".
Proof.
  assert (HU : upload_passes sample_env good_request)
    by apply sample_upload_passes.
  split; [ exact HU | ]. split; [ reflexivity | ].
  exact (proj2 (proj2 (proj2 (proj2
           (C8_stored_file_name sample_env sample_file))))
           good_request sample_store HU eq_refl).
Defined.

Lemma C6_phone_ten_digits_witness :
  is_POST bad_phone_request /\
  upload_passes sample_env bad_phone_request /\
  check_full_name bad_phone_request = None /\
  check_email bad_phone_request = None /\
  response_of no_case_table sample_env bad_phone_request sample_store
  = error_response 400 "Phone number must be exactly 10 digits".
Proof.
  assert (HU : upload_passes sample_env bad_phone_request)
    by apply sample_upload_passes.
  do 4 (split; [ reflexivity || exact HU | ]).
  apply (proj2 (proj2 (C6_phone_ten_digits no_case_table)))
    with (p := js "123-456-7890");
    [ simpl; tauto | reflexivity | exact HU | reflexivity | reflexivity
    | reflexivity ].
Defined.

Lemma C7_email_shape_witness :
  is_POST bad_email_request /\
  upload_passes sample_env bad_email_request /\
  check_full_name bad_email_request = None /\
  email_passes (email bad_email_request) = false /\
  (response_of no_case_table sample_env bad_email_request sample_store
   = error_response 400 "Email is required" \/
   response_of no_case_table sample_env bad_email_request sample_store
   = error_response 400 "Invalid email format").
Proof.
  assert (HU : upload_passes sample_env bad_email_request)
    by apply sample_upload_passes.
  do 4 (split; [ reflexivity || exact HU | ]).
  apply (proj2 (proj2 (C7_email_shape no_case_table))
           sample_env bad_email_request sample_store eq_refl HU eq_refl).
  reflexivity.
Defined.

Lemma C3_first_violation_wins_witness :
  is_POST missing_name_request /\
  upload_passes sample_env missing_name_request /\
  truthy (optTrim (fullName missing_name_request)) = false /\
  check_email missing_name_request = Some "Invalid email format"%string /\
  check_phone missing_name_request
  = Some "Phone number must be exactly 10 digits"%string /\
  response_of no_case_table sample_env missing_name_request sample_store
  = error_response 400 "Full name is required".
Proof.
  assert (HU : upload_passes sample_env missing_name_request)
    by apply sample_upload_passes.
  do 5 (split; [ reflexivity || exact HU | ]).
  apply (proj2 (@C3_first_violation_wins no_case_table sample_env
                  missing_name_request sample_store eq_refl HU)).
  reflexivity.
Defined.

Lemma good_request_accepted :
  response_of no_case_table sample_env good_request sample_store
  = Some {| status := 200;
            body := SuccessBody (js "Application submitted successfully!") 2 |}.
Proof. vm_compute. reflexivity. Defined.

Lemma spaced_request_accepted :
  response_of no_case_table sample_env spaced_request sample_store
  = Some {| status := 200;
            body := SuccessBody (js "Application submitted successfully!") 2 |}.
Proof. vm_compute. reflexivity. Defined.

Lemma C5_created_record_witness :
  response_of no_case_table sample_env spaced_request sample_store
  = Some {| status := 200;
            body := SuccessBody (js "Application submitted successfully!") 2 |}
  /\
  Prisma.rows (table (store_after no_case_table sample_env spaced_request
                        sample_store))
  = Prisma.rows (table sample_store)
    ++ [ {| Prisma.id := 2;
            Prisma.full_name := js "Ann Lee";
            Prisma.email := js "ann@example.com";
            Prisma.phone := js "1234567890";
            Prisma.linkedin := Some (js "https://www.LinkedIn.com/in/ann");
            Prisma.resume_path :=
              Some (js "resumes/1700000000000-my_cv_1_.pdf") |} ]
  /\
  exists file name em ph,
    resume spaced_request = Some file /\
    fullName spaced_request = Some name /\
    email spaced_request = Some em /\
    phone spaced_request = Some ph /\
    let stored := stored_file sample_env file in
    let row := expected_record no_case_table
                 (Prisma.next_id (table sample_store)) name em ph
                 (linkedin spaced_request) stored in
    Prisma.rows (table (store_after no_case_table sample_env spaced_request
                          sample_store))
    = Prisma.rows (table sample_store) ++ [row] /\
    SuccessBody (js "Application submitted successfully!") 2
    = SuccessBody (js "Application submitted successfully!") (Prisma.id row) /\
    Prisma.resume_path row
    = Some (js "resumes/" ++ storage_filename sample_env file) /\
    path stored
    = path_join (cwd sample_env)
        (js "resumes/" ++ storage_filename sample_env file) /\
    has_file (path stored)
      (files (store_after no_case_table sample_env spaced_request sample_store))
    = true /\
    trimmed_of name (Prisma.full_name row) /\
    (exists t, trimmed_of em t /\
               lower_cased_of no_case_table t (Prisma.email row)) /\
    trimmed_of ph (Prisma.phone row) /\
    match linkedin spaced_request with
    | None | Some [] => Prisma.linkedin row = None
    | Some l => exists t, Prisma.linkedin row = Some t /\ trimmed_of l t
    end.
Proof.
  split; [ exact spaced_request_accepted | ].
  split; [ vm_compute; reflexivity | ].
  exact (@C5_created_record no_case_table sample_env spaced_request sample_store
           _ spaced_request_accepted).
Defined.

Lemma C10_phone_lookup_is_stored_witness :
  validatePhone (Some (js "1234567890")) = true /\
  (exists p, Some (js "1234567890") = Some p /\
             Forall is_digit p /\ trim p = p) /\
  exists p row,
    phone good_request = Some p /\
    Prisma.findFirst Prisma.phone (Some p) (table sample_store) = None /\
    Prisma.rows (table (store_after no_case_table sample_env good_request
                          sample_store))
    = Prisma.rows (table sample_store) ++ [row] /\
    Prisma.phone row = p.
Proof.
  split; [ reflexivity | ]. split.
  - exact (proj1 (C10_phone_lookup_is_stored no_case_table)
             (Some (js "1234567890")) eq_refl).
  - exact (proj2 (C10_phone_lookup_is_stored no_case_table)
             sample_env good_request sample_store _ good_request_accepted).
Defined.

Lemma C1_failed_check_leaves_file_witness :
  is_POST missing_name_request /\
  upload_passes sample_env missing_name_request /\
  resume missing_name_request = Some sample_file /\
  first_violation (text_checks no_case_table missing_name_request)
  = Some "Full name is required"%string /\
  response_of no_case_table sample_env missing_name_request sample_store
  = error_response 400 "Full name is required" /\
  has_file (path (stored_file sample_env sample_file))
    (files (store_after no_case_table sample_env missing_name_request
              sample_store)) = true /\
  table (store_after no_case_table sample_env missing_name_request sample_store)
  = table sample_store.
Proof.
  assert (HU : upload_passes sample_env missing_name_request)
    by apply sample_upload_passes.
  do 4 (split; [ reflexivity || exact HU | ]).
  exact (@C1_failed_check_leaves_file no_case_table sample_env
           missing_name_request sample_store sample_file
           "Full name is required" eq_refl HU eq_refl eq_refl).
Defined.

Lemma C2_other_case_email_accepted_witness :
  (exists a, In a (Prisma.rows (table sample_store)) /\
             Prisma.email a = js "a@b.com") /\
  email other_case_request = Some (js "A@B.com") /\
  exists row b,
    response_of no_case_table sample_env other_case_request sample_store
    = Some {| status := 200; body := b |} /\
    Prisma.rows (table (store_after no_case_table sample_env other_case_request
                          sample_store))
    = Prisma.rows (table sample_store) ++ [row] /\
    Prisma.email row = js "a@b.com".
Proof.
  assert (Hex : exists a, In a (Prisma.rows (table sample_store)) /\
                          Prisma.email a = js "a@b.com").
  { eexists. split; [ left; reflexivity | reflexivity ]. }
  split; [ exact Hex | ]. split; [ reflexivity | ].
  apply (@C2_other_case_email_accepted no_case_table sample_env
           other_case_request sample_store (js "Ann Lee") (js "1234567890")).
  - reflexivity.
  - apply sample_upload_passes.
  - repeat split.
  - reflexivity.
  - reflexivity.
  - reflexivity.
  - reflexivity.
  - exact Hex.
  - intros a [<- | []]. vm_compute. discriminate.
  - intros a [<- | []]. vm_compute. discriminate.
Defined.

Lemma C4_failed_deletion_changes_response_witness :
  is_POST duplicate_request /\
  upload_passes sample_env_unlink_fails duplicate_request /\
  unlink_fault sample_env_unlink_fails = Some EPERM /\
  (exists a, Prisma.findFirst Prisma.email (email duplicate_request)
               (table sample_store) = Some a) /\
  response_of no_case_table sample_env_unlink_fails duplicate_request
    sample_store
  = error_response 500 "Internal server error".
Proof.
  assert (HU : upload_passes sample_env_unlink_fails duplicate_request).
  { split; [ reflexivity | ]. split; [ reflexivity | ].
    vm_compute. discriminate. }
  split; [ reflexivity | ]. split; [ exact HU | ]. split; [ reflexivity | ].
  split; [ eexists; reflexivity | ].
  exact (@C4_failed_deletion_changes_response no_case_table
           sample_env_unlink_fails duplicate_request sample_store _
           eq_refl HU eq_refl eq_refl eq_refl).
Defined.

(** ** The further properties at the sample data *)

Lemma X1_wrong_type_refused_witness :
  is_POST text_file_request /\
  upload_fault sample_env = None /\
  resume text_file_request = Some text_file /\
  ~ In (mimetype text_file) allowedMimeTypes /\
  response_of no_case_table sample_env text_file_request sample_store
  = error_response 400 "Only PDF and DOCX files are allowed" /\
  table (store_after no_case_table sample_env text_file_request sample_store)
  = table sample_store /\
  files (store_after no_case_table sample_env text_file_request sample_store)
  = files sample_store.
Proof.
  assert (HT : ~ In (mimetype text_file) allowedMimeTypes).
  { vm_compute. intros [H | [H | []]]; discriminate H. }
  do 3 (split; [ reflexivity | ]). split; [ exact HT | ].
  exact (@X1_wrong_type_refused no_case_table sample_env text_file_request
           sample_store text_file eq_refl eq_refl eq_refl HT).
Defined.

Lemma X2_oversize_refused_witness :
  let p := path (stored_file sample_env big_file) in
  is_POST big_file_request /\
  upload_fault sample_env = None /\
  resume big_file_request = Some big_file /\
  In (mimetype big_file) allowedMimeTypes /\
  (5 * 1024 * 1024 < size big_file)%N /\
  has_file p (files sample_store) = false /\
  response_of no_case_table sample_env big_file_request sample_store
  = error_response 400 "File size too large. Maximum 5MB allowed." /\
  table (store_after no_case_table sample_env big_file_request sample_store)
  = table sample_store /\
  has_file p
    (files (store_after no_case_table sample_env big_file_request sample_store))
  = false /\
  files (store_after no_case_table sample_env big_file_request sample_store)
  = files sample_store.
Proof.
  intros p.
  assert (HT : In (mimetype big_file) allowedMimeTypes)
    by (left; reflexivity).
  assert (HS : (5 * 1024 * 1024 < size big_file)%N) by reflexivity.
  assert (HN : has_file p (files sample_store) = false)
    by (vm_compute; reflexivity).
  do 3 (split; [ reflexivity | ]). split; [ exact HT | ].
  split; [ exact HS | ]. split; [ exact HN | ].
  destruct (@X2_oversize_refused no_case_table sample_env big_file_request
              sample_store big_file eq_refl eq_refl eq_refl HT HS)
    as (H1 & H2 & H3 & H4).
  split; [ exact H1 | ]. split; [ exact H2 | ].
  split; [ exact H3 | exact (H4 HN) ].
Defined.

Lemma X3_failed_upload_witness :
  is_POST text_file_request /\
  ~ upload_passes sample_env text_file_request /\
  response_of no_case_table sample_env text_file_request sample_store
  = error_response 400 "Only PDF and DOCX files are allowed" /\
  response_of no_case_table sample_env text_file_request sample_store
  <> error_response 500 "Internal server error" /\
  fst (serve no_case_table sample_env text_file_request sample_store)
  = Throw ERR_HTTP_HEADERS_SENT /\
  table (store_after no_case_table sample_env text_file_request sample_store)
  = table sample_store.
Proof.
  assert (HU : ~ upload_passes sample_env text_file_request).
  { intros (_ & H & _). vm_compute in H. discriminate H. }
  split; [ reflexivity | ]. split; [ exact HU | ].
  pose proof (@X3_failed_upload no_case_table sample_env text_file_request
                sample_store eq_refl HU) as (_ & H1 & H2 & H3 & _).
  split; [ reflexivity | ]. split; [ exact H1 | ].
  split; [ exact H2 | exact H3 ].
Defined.

Lemma sample_phones_distinct : NoDup (phones (table sample_store)).
Proof. constructor; [ intros [] | constructor ]. Defined.

Lemma X6_phones_stay_distinct_witness :
  let runs := [ (sample_env, good_request); (sample_env_later, good_request);
                (sample_env_later, lower_case_request) ] in
  NoDup (phones (table sample_store)) /\
  phones (table (serve_all no_case_table runs sample_store))
  = [ js "5550001111"; js "1234567890" ] /\
  NoDup (phones (table (serve_all no_case_table runs sample_store))).
Proof.
  intros runs.
  split; [ exact sample_phones_distinct | ].
  split; [ vm_compute; reflexivity | ].
  exact (@X6_phones_stay_distinct no_case_table runs sample_store
           sample_phones_distinct).
Defined.

Lemma X7_lower_case_emails_stay_distinct_witness :
  let runs := [ (sample_env, lower_case_request);
                (sample_env_later, lower_case_request) ] in
  (forall env req e,
      In (env, req) runs -> email req = Some e ->
      toLowerCase no_case_table e = e) /\
  NoDup (emails (table sample_store)) /\
  emails (table (serve_all no_case_table runs sample_store))
  = [ js "a@b.com"; js "ann@example.com" ] /\
  NoDup (emails (table (serve_all no_case_table runs sample_store))).
Proof.
  intros runs.
  assert (HL : forall env req e,
             In (env, req) runs -> email req = Some e ->
             toLowerCase no_case_table e = e).
  { intros env req e [[= <- <-] | [[= <- <-] | []]] [= <-]; reflexivity. }
  assert (ND : NoDup (emails (table sample_store)))
    by (constructor; [ intros [] | constructor ]).
  split; [ exact HL | ]. split; [ exact ND | ].
  split; [ vm_compute; reflexivity | ].
  exact (@X7_lower_case_emails_stay_distinct no_case_table runs sample_store
           HL ND).
Defined.


Lemma duplicate_request_refused :
  response_of no_case_table sample_env duplicate_request sample_store
  = error_response 400 "An application with this email already exists".
Proof. vm_compute. reflexivity. Defined.

Lemma X9_duplicate_leaves_no_file_witness :
  is_POST duplicate_request /\
  upload_passes sample_env duplicate_request /\
  resume duplicate_request = Some sample_file /\
  response_of no_case_table sample_env duplicate_request sample_store
  = error_response 400 "An application with this email already exists" /\
  has_file (path (stored_file sample_env sample_file)) (files sample_store)
  = false /\
  has_file (path (stored_file sample_env sample_file))
    (files (store_after no_case_table sample_env duplicate_request
              sample_store)) = false /\
  files (store_after no_case_table sample_env duplicate_request sample_store)
  = files sample_store.
Proof.
  assert (HU : upload_passes sample_env duplicate_request)
    by apply sample_upload_passes.
  assert (HN : has_file (path (stored_file sample_env sample_file))
                 (files sample_store) = false) by (vm_compute; reflexivity).
  split; [ reflexivity | ]. split; [ exact HU | ]. split; [ reflexivity | ].
  split; [ exact duplicate_request_refused | ]. split; [ exact HN | ].
  destruct (@X9_duplicate_leaves_no_file no_case_table sample_env
              duplicate_request sample_store sample_file eq_refl HU eq_refl
              (or_introl duplicate_request_refused)) as (H1 & H2).
  split; [ exact H1 | exact (H2 HN) ].
Defined.

Lemma create_fault_answer :
  response_of no_case_table sample_env_create_fails good_request sample_store
  = error_response 500 "Internal server error".
Proof. vm_compute. reflexivity. Defined.

Lemma X10_cleanup_after_fault_witness :
  is_POST good_request /\
  upload_passes sample_env_create_fails good_request /\
  resume good_request = Some sample_file /\
  response_of no_case_table sample_env_create_fails good_request sample_store
  = error_response 500 "Internal server error" /\
  exists e,
    has_file (path (stored_file sample_env_create_fails sample_file))
      (files (store_after no_case_table sample_env_create_fails good_request
                sample_store)) = false /\
    console (store_after no_case_table sample_env_create_fails good_request
               sample_store)
    = console sample_store ++ [LogApiError e].
Proof.
  assert (HU : upload_passes sample_env_create_fails good_request).
  { split; [ reflexivity | ]. split; [ reflexivity | ].
    vm_compute. discriminate. }
  split; [ reflexivity | ]. split; [ exact HU | ]. split; [ reflexivity | ].
  split; [ exact create_fault_answer | ].
  exact (@X10_cleanup_after_fault no_case_table sample_env_create_fails
           good_request sample_store sample_file eq_refl HU eq_refl
           create_fault_answer).
Defined.

Lemma X12_linkedin_check_witness :
  let s := js "https://www.LinkedIn.com/in/ann" in
  s <> [] /\ forallb basic_or_space s = true /\
  (validateLinkedIn no_case_table (Some s) = true <->
   exists pre v post,
     s = pre ++ v ++ post /\ map lowerBasicLatin v = js "linkedin.com/in/").
Proof.
  intros s.
  assert (Hne : s <> []) by discriminate.
  split; [ exact Hne | ]. split; [ reflexivity | ].
  exact (proj2 (proj2 (X12_linkedin_check no_case_table)) s Hne eq_refl).
Defined.

Lemma X15_email_lookup_and_stored_witness :
  validateEmail (Some (js "Ann@Example.com")) = true /\
  (exists e, Some (js "Ann@Example.com") = Some e /\ trim e = e /\
             Forall (fun c => isWhiteSpace c = false) e /\
             count_occ N.eq_dec e (cu "@") = 1%nat) /\
  exists e row,
    email good_request = Some e /\
    Prisma.findFirst Prisma.email (Some e) (table sample_store) = None /\
    Prisma.rows (table (store_after no_case_table sample_env good_request
                          sample_store))
    = Prisma.rows (table sample_store) ++ [row] /\
    Prisma.email row = toLowerCase no_case_table e /\
    (forallb isBasicLatin e = true -> Prisma.email row = map lowerBasicLatin e).
Proof.
  split; [ reflexivity | ]. split.
  - exact (proj1 (X15_email_lookup_and_stored no_case_table)
             (Some (js "Ann@Example.com")) eq_refl).
  - exact (proj2 (X15_email_lookup_and_stored no_case_table)
             sample_env good_request sample_store _ good_request_accepted).
Defined.

Lemma sample_rows_well_formed :
  Forall well_formed_row (Prisma.rows (table sample_store)).
Proof.
  constructor; [ | constructor ].
  split.
  - split; [ reflexivity | ].
    repeat constructor; vm_compute; discriminate.
  - split; [ discriminate | ]. split; [ exact I | ].
    exists (js "1690000000000-bo.pdf"). reflexivity.
Defined.

Lemma X16_rows_stay_well_formed_witness :
  Forall well_formed_row (Prisma.rows (table sample_store)) /\
  Forall well_formed_row
    (Prisma.rows (table (store_after no_case_table sample_env good_request
                           sample_store))).
Proof.
  split; [ exact sample_rows_well_formed | ].
  exact (@X16_rows_stay_well_formed no_case_table sample_env good_request
           sample_store sample_rows_well_formed).
Defined.

Lemma X17_form_checks_suffice_witness :
  client_validations sample_form = None /\
  upload_fault sample_env = None /\
  (forall f, selectedFile sample_form = Some f ->
             (file_size f < 5 * 1024 * 1024)%N) /\
  upload_passes sample_env (form_request sample_form) /\
  check_full_name (form_request sample_form) = None /\
  check_email (form_request sample_form) = None /\
  check_phone (form_request sample_form) = None.
Proof.
  assert (HB : forall f, selectedFile sample_form = Some f ->
                         (file_size f < 5 * 1024 * 1024)%N).
  { intros f [= <-]. reflexivity. }
  split; [ reflexivity | ]. split; [ reflexivity | ]. split; [ exact HB | ].
  destruct (@X17_form_checks_suffice no_case_table sample_env sample_store
              sample_form eq_refl eq_refl HB) as (H1 & H2 & H3 & H4 & _).
  split; [ exact H1 | ]. split; [ exact H2 | ]. split; [ exact H3 | exact H4 ].
Defined.

Lemma sample_form_accepted :
  response_of no_case_table sample_env (form_request sample_form) sample_store
  = Some {| status := 200;
            body := SuccessBody (js "Application submitted successfully!") 2 |}.
Proof. vm_compute. reflexivity. Defined.

Lemma X18_handler_rechecks_form_witness :
  response_of no_case_table sample_env (form_request sample_form) sample_store
  = Some {| status := 200;
            body := SuccessBody (js "Application submitted successfully!") 2 |}
  /\ client_validations sample_form = None.
Proof.
  split; [ exact sample_form_accepted | ].
  exact (@X18_handler_rechecks_form no_case_table sample_env sample_store
           sample_form _ sample_form_accepted).
Defined.

Lemma sample_no_fault : no_fault sample_env.
Proof. repeat split. Defined.

Lemma X19_answer_to_valid_submission_witness :
  is_POST duplicate_request /\
  upload_passes sample_env duplicate_request /\
  first_violation
    (field_checks no_case_table duplicate_request
       (uploaded sample_env duplicate_request)) = None /\
  no_fault sample_env /\
  (exists a, In a (Prisma.rows (table sample_store)) /\
             Prisma.email a = js "a@b.com") /\
  response_of no_case_table sample_env duplicate_request sample_store
  = error_response 400 "An application with this email already exists".
Proof.
  assert (HU : upload_passes sample_env duplicate_request)
    by apply sample_upload_passes.
  assert (Hex : exists a, In a (Prisma.rows (table sample_store)) /\
                          Prisma.email a = js "a@b.com").
  { eexists. split; [ left; reflexivity | reflexivity ]. }
  split; [ reflexivity | ]. split; [ exact HU | ]. split; [ reflexivity | ].
  split; [ exact sample_no_fault | ]. split; [ exact Hex | ].
  exact (proj1 (@X19_answer_to_valid_submission no_case_table sample_env
                  duplicate_request sample_store (js "a@b.com")
                  (js "1234567890") eq_refl HU eq_refl sample_no_fault
                  eq_refl eq_refl) Hex).
Defined.

Lemma X20_other_files_untouched_witness :
  let q := js "/app/resumes/1690000000000-bo.pdf" in
  (forall file, resume duplicate_request = Some file ->
                q <> path (stored_file sample_env file)) /\
  has_file q (files (store_after no_case_table sample_env duplicate_request
                       sample_store))
  = has_file q (files sample_store).
Proof.
  intros q.
  assert (Hq : forall file, resume duplicate_request = Some file ->
                            q <> path (stored_file sample_env file)).
  { intros file [= <-]. vm_compute. discriminate. }
  split; [ exact Hq | ].
  exact (@X20_other_files_untouched no_case_table sample_env duplicate_request
           sample_store q Hq).
Defined.
